(** * GripForge dashboard: unit converter, profile store, session recorder,
      Wi-Fi transport adapter and connection orchestrator.

    A shallow embedding of [src/App.tsx], [src/utils/storage.ts],
    [src/utils/types.ts], [src/lib/dataSource.ts] and
    [src/hooks/useForceStream.ts].

    Numbers.  JavaScript numbers that carry a force are modelled by exact
    rationals ([Q]); rounding of IEEE doubles is outside the model.
    Millisecond clocks and timestamps ([Date.now()], [t_ms]) are integers
    ([Z]).  Values the code draws from the environment ([Date.now()],
    [crypto.randomUUID()], the outcome of [JSON.parse], of [fetch], of the
    socket) are explicit arguments of the operations. *)

From Stdlib Require Import String Bool ZArith QArith Qminmax Qfield Lia List.
Import ListNotations.

Local Open Scope Z_scope.

(* ================================================================== *)
(** ** Data model ([src/utils/types.ts]) *)

Inductive Units := kg | N | lbf.

Definition Units_eqb (a b : Units) : bool :=
  match a, b with
  | kg, kg | N, N | lbf, lbf => true
  | _, _ => false
  end.

Record ForceSample := mkForceSample
  { force : Q; units : Units; timestamp_ms : Z }.

Record SessionSample := mkSessionSample
  { t_ms : Z; s_force : Q; s_units : Units }.

Inductive TrainingMode := ModeMax | ModeEndurance | ModePyramid | ModeFree.

Inductive Hand := Right | Left.

Record SessionSummary := mkSessionSummary
  { id : string;
    mode : TrainingMode;
    hand : Hand;
    startedAt : Z;
    durationMs : Z;
    maxForce : Q;
    avgForce : Q;
    longestHoldMs : Z;
    sum_units : Units }.

Record EnduranceConfig := mkEndurance { targetForce : Q }.

Record PyramidConfig := mkPyramid { steps : list Q }.

Record ProfileConfig := mkProfileConfig
  { name : string;
    endurance : EnduranceConfig;
    pyramid : PyramidConfig;
    preferredUnits : Units;
    password : option string;
    friends : list string }.

Record ProfileData := mkProfileData
  { profile : ProfileConfig; sessions : list SessionSummary }.

(* ================================================================== *)
(** ** Unit converter ([convertForce], App.tsx) *)

Module Converter.

Local Open Scope Q_scope.

(** The two literals of the source, as exact decimals. *)
Definition LBF_PER_KG : Q := 220462 # 100000.   (* 2.20462 *)
Definition N_PER_KG : Q := 980665 # 100000.     (* 9.80665 *)

(** [const convertForce = (value, from, to) => ...] *)
Definition convertForce (value : Q) (from to : Units) : Q :=
  if Units_eqb from to then value
  else
    let asKg :=
      match from with
      | kg => value
      | lbf => value / LBF_PER_KG
      | N => value / N_PER_KG
      end in
    match to with
    | kg => asKg
    | lbf => asKg * LBF_PER_KG
    | N => asKg * N_PER_KG
    end.

End Converter.

(* ================================================================== *)
(** ** Profile store ([src/utils/storage.ts]) *)

Module Storage.

Definition defaultProfile : ProfileConfig :=
  mkProfileConfig "bryce" (mkEndurance 35%Q)
                  (mkPyramid [20; 30; 40; 30; 20]%Q) kg None [].

(** [entry.profile.name === n] *)
Definition named (n : string) (entry : ProfileData) : bool :=
  String.eqb (name (profile entry)) n.

(** [updateProfile]: [profiles.map(entry => match ? {...entry, profile: updated} : entry)] *)
Definition updateProfile (profiles : list ProfileData) (updated : ProfileConfig)
  : list ProfileData :=
  map (fun entry =>
         if named (name updated) entry
         then mkProfileData updated (sessions entry)
         else entry) profiles.

(** [addProfile]: [profiles.some(...) ? profiles : [...profiles, {profile, sessions: []}]] *)
Definition addProfile (profiles : list ProfileData) (p : ProfileConfig)
  : list ProfileData :=
  let exists_ := existsb (named (name p)) profiles in
  if exists_ then profiles
  else profiles ++ [mkProfileData p []].

(** [addSession]: [profiles.map(entry => match ? {...entry, sessions: [session, ...entry.sessions]} : entry)] *)
Definition addSession (profiles : list ProfileData) (profileName : string)
           (session : SessionSummary) : list ProfileData :=
  map (fun entry =>
         if named profileName entry
         then mkProfileData (profile entry) (session :: sessions entry)
         else entry) profiles.

End Storage.

(* ================================================================== *)
(** ** Session recorder ([App], App.tsx)

    The component state that the session code reads and writes.  The two
    refs are mutable cells; the rest is React state. *)

Module Recorder.

Record AppState := mkAppState
  { profiles : list ProfileData;
    activeProfileName : string;
    activeMode : TrainingMode;
    sessionHand : Hand;
    sessionActive : bool;
    sessionSamplesRef : list SessionSample;
    sessionSamples : list SessionSample;       (* display copy, for the chart *)
    sessionStartRef : option Z }.

Definition set_session (active : bool) (buf shown : list SessionSample)
           (start : option Z) (st : AppState) : AppState :=
  mkAppState (profiles st) (activeProfileName st) (activeMode st)
             (sessionHand st) active buf shown start.

Definition set_profiles (ps : list ProfileData) (st : AppState) : AppState :=
  mkAppState ps (activeProfileName st) (activeMode st) (sessionHand st)
             (sessionActive st) (sessionSamplesRef st) (sessionSamples st)
             (sessionStartRef st).

(** [profiles.find(e => e.profile.name === activeProfileName) || profiles[0]];
    [None] stands for [undefined] (empty collection). *)
Definition activeProfile (st : AppState) : option ProfileData :=
  match find (Storage.named (activeProfileName st)) (profiles st) with
  | Some e => Some e
  | None => hd_error (profiles st)
  end.

(** The display bound of the sample buffer. *)
Definition BUFFER_POINTS : nat := 800.

(** [xs.slice(-n)] for a positive [n]: the last [n] elements, all of them
    when there are fewer. *)
Definition slice_last {A} (n : nat) (xs : list A) : list A :=
  skipn (length xs - n) xs.

(** [startSessionHandler], with [now = Date.now()].  The pass-through
    notification [await startSession()] does not touch this state. *)
Definition startSessionHandler (now : Z) (st : AppState) : AppState :=
  set_session true [] [] (Some now) st.

(** Body of the session sample effect (the [useEffect] on
    [convertedForce, preferredUnits, sessionActive]), which React runs
    after a render in which one of these three changed; one run of the
    body is one sample fed to the recorder.  [now = Date.now()]. *)
Definition sessionSampleEffect (now : Z) (convertedForce : Q)
           (preferredUnits_ : Units) (st : AppState) : AppState :=
  if negb (sessionActive st) then st
  else
    let sessionStart :=
      match sessionStartRef st with Some s => s | None => now end in
    let nextSample := mkSessionSample (now - sessionStart) convertedForce
                                      preferredUnits_ in
    let buf := slice_last BUFFER_POINTS (sessionSamplesRef st ++ [nextSample]) in
    set_session (sessionActive st) buf buf (Some sessionStart) st.

(** [Math.max(x, ...xs)] on a non-empty argument list. *)
Definition Math_max (x : Q) (xs : list Q) : Q := fold_left Qmax xs x.

(** [samples.reduce((sum, s) => sum + s.force, 0)] *)
Definition reduce_sum (samples : list SessionSample) : Q :=
  fold_left (fun sum s => (sum + s_force s)%Q) samples 0%Q.

(** The hold loop of [stopSessionHandler]:
    [for (i = 1; i < samples.length; i += 1)], with [prev = samples[i-1]]
    and [rest = samples[i..]]; returns the final [longestHoldMs]. *)
Fixpoint holdLoop (target : Q) (prev : SessionSample)
         (rest : list SessionSample) (longestHoldMs_ currentHold : Z) : Z :=
  match rest with
  | [] => longestHoldMs_
  | s :: rest' =>
      let delta := t_ms s - t_ms prev in
      if Qle_bool target (s_force s) then
        let currentHold' := currentHold + delta in
        holdLoop target s rest' (Z.max longestHoldMs_ currentHold') currentHold'
      else
        holdLoop target s rest' longestHoldMs_ 0
  end.

(** How an [async] handler ends. *)
Inductive Completion := Returned | Threw.

Record StopResult := mkStopResult
  { completion : Completion;
    summary : option SessionSummary;
    state : AppState }.

(** The summary built by [stopSessionHandler] from a non-empty buffer
    [first :: rest]. *)
Definition buildSummary (newId : string) (now : Z) (ap : ProfileData)
           (md : TrainingMode) (hd_ : Hand)
           (first : SessionSample) (rest : list SessionSample)
  : SessionSummary :=
  let samples := first :: rest in
  let maxForce_ := Math_max (s_force first) (map s_force rest) in
  let avgForce_ :=
    (reduce_sum samples / inject_Z (Z.of_nat (length samples)))%Q in
  let durationMs_ := t_ms (last samples first) in
  let target := targetForce (endurance (profile ap)) in
  let longestHoldMs_ := holdLoop target first rest 0 0 in
  mkSessionSummary newId md hd_ (now - durationMs_) durationMs_
                   maxForce_ avgForce_ longestHoldMs_
                   (preferredUnits (profile ap)).

(** [stopSessionHandler].  [notified] is whether [await stopSession()]
    fulfilled ([false]: the promise rejected and the handler ends there);
    [newId = createId()], [now = Date.now()].  Reading
    [activeProfile.profile] of an empty collection throws. *)
Definition stopSessionHandler (notified : bool) (newId : string) (now : Z)
           (st : AppState) : StopResult :=
  let st1 := set_session false (sessionSamplesRef st) (sessionSamples st)
                         (sessionStartRef st) st in
  if negb notified then mkStopResult Threw None st1
  else
    match sessionSamplesRef st with
    | [] => mkStopResult Returned None st1
    | first :: rest =>
        match activeProfile st with
        | None => mkStopResult Threw None st1
        | Some ap =>
            let s := buildSummary newId now ap (activeMode st)
                                  (sessionHand st) first rest in
            mkStopResult Returned (Some s)
              (set_profiles
                 (Storage.addSession (profiles st1) (name (profile ap)) s)
                 st1)
        end
    end.

(** The effect body run once for each of [readings], in order; a reading
    [(now, convertedForce)] is one run of the effect, that is one render at
    which a dependency had changed, not one sample delivered by the hook
    (for which see [Lifecycle] below). *)
Definition feed (pu : Units) (readings : list (Z * Q)) (st : AppState)
  : AppState :=
  fold_left (fun s r => sessionSampleEffect (fst r) (snd r) pu s) readings st.

(** A whole session whose stop notification is fulfilled: start at [t0],
    the effect runs [readings], stop at [tstop].  The session whose
    notification is rejected is [stopSessionHandler false]. *)
Definition runSession (t0 : Z) (pu : Units) (readings : list (Z * Q))
           (newId : string) (tstop : Z) (st : AppState) : StopResult :=
  stopSessionHandler true newId tstop (feed pu readings (startSessionHandler t0 st)).

(** The sample recorded for a reading, in a session started at [t0]. *)
Definition recorded (t0 : Z) (pu : Units) (r : Z * Q) : SessionSample :=
  mkSessionSample (fst r - t0) (snd r) pu.

(** What a recording session keeps fixed. *)
Definition recording (t0 : Z) (st st' : AppState) : Prop :=
  sessionActive st' = true /\
  sessionStartRef st' = Some t0 /\
  profiles st' = profiles st /\
  activeProfileName st' = activeProfileName st /\
  activeMode st' = activeMode st /\
  sessionHand st' = sessionHand st /\
  (length (sessionSamplesRef st') <= BUFFER_POINTS)%nat.

End Recorder.

(* ================================================================== *)
(** ** Wi-Fi transport adapter ([createWifiSource], dataSource.ts)

    One [connect(handlers)] call is a state machine over the closure
    variables [active], [ws], [pollId], [connected].  The handlers are
    opaque callbacks, so the model records every invocation, in order. *)

Module Wifi.

Inductive ConnectionStatus := Disconnected | Connecting | Connected.

Record Meta := mkMeta
  { batteryVoltage : option Q; isConnected : option bool }.

(** One invocation of a member of [ForceStreamHandlers]. *)
Inductive Call :=
| OnStatus (s : ConnectionStatus)
| OnSample (s : ForceSample)
| OnError (message : string)
| OnMeta (m : Meta).

Definition WIFI_FALLBACK_MESSAGE : string :=
  "Device not reachable — check Wi-Fi connection.".

Definition CONNECT_TIMEOUT_MS : Z := 1500.
Definition POLL_INTERVAL_MS : Z := 150.

(** What the handlers read of a decoded body.  A property is [None] when
    it is [undefined] or [null], which is what [??] tests.  The field
    types are the ones the source asserts with its [as {...}] cast. *)
Record Payload := mkPayload
  { p_force : option Q;
    p_units : option Units;
    p_timestamp_ms : option Z;
    p_battery_v : option Q;
    p_is_connected : option bool }.

(** Outcome of [JSON.parse(event.data)] or [response.json()]: a syntax
    error is thrown; the value is [null], on which any property access
    throws; or it is another value, seen through its properties (a
    number, string, boolean or array has none of them). *)
Inductive Json := JsonThrows | JsonNull | JsonValue (p : Payload).

(** Outcome of [fetch("/api/force")]. *)
Inductive FetchResult :=
| FetchRejects
| Response (ok : bool) (body : Json).

(** Where the promise awaited by [connect] stands: unsettled; resolved by
    [open] (message and close listeners attached); rejected (the [catch]
    branch ran [startPolling]). *)
Inductive Phase := Pending | Streaming | Polling.

Record State := mkState
  { active : bool;
    connected : bool;
    phase : Phase;
    wsClosed : bool;               (* [ws.close()] was called *)
    timer : bool;                  (* the connect timeout is armed *)
    pollId : option positive;
    intervalLive : bool;           (* the interval is set and not cleared *)
    nextTimerId : positive;        (* ids handed out by [window] *)
    onMetaGiven : bool;            (* [handlers.onMeta] is defined *)
    calls : list Call }.

Definition emit (c : Call) (w : State) : State :=
  mkState (active w) (connected w) (phase w) (wsClosed w) (timer w)
          (pollId w) (intervalLive w) (nextTimerId w) (onMetaGiven w)
          (calls w ++ [c]).

(** [const cleanup = () => {...}] *)
Definition cleanup (w : State) : State :=
  emit (OnStatus Disconnected)
       (mkState false (connected w) (phase w) true (timer w) (pollId w)
                (match pollId w with Some _ => false | None => intervalLive w end)
                (nextTimerId w) (onMetaGiven w) (calls w)).

(** [const handleSample = (sample) => {...}] *)
Definition handleSample (sample : ForceSample) (w : State) : State :=
  let w1 :=
    if negb (connected w) then
      emit (OnStatus Connected)
           (mkState (active w) true (phase w) (wsClosed w) (timer w)
                    (pollId w) (intervalLive w) (nextTimerId w)
                    (onMetaGiven w) (calls w))
    else w in
  emit (OnSample sample) w1.

(** The object literal both paths pass to [handleSample]:
    [{force: data.force ?? 0, units: data.units ?? "kg",
      timestamp_ms: data.timestamp_ms ?? Date.now()}]. *)
Definition sampleOf (p : Payload) (now : Z) : ForceSample :=
  mkForceSample
    (match p_force p with Some f => f | None => 0%Q end)
    (match p_units p with Some u => u | None => kg end)
    (match p_timestamp_ms p with Some t => t | None => now end).

(** [const startPolling = () => { pollId = window.setInterval(..., 150) }] *)
Definition startPolling (w : State) : State :=
  mkState (active w) (connected w) Polling (wsClosed w) (timer w)
          (Some (nextTimerId w)) true (Pos.succ (nextTimerId w))
          (onMetaGiven w) (calls w).

(** The start of [connect]: [onStatus("connecting")], the closure
    variables, the socket and the timeout of [CONNECT_TIMEOUT_MS]. *)
Definition connect (firstTimerId : positive) (hasOnMeta : bool) : State :=
  emit (OnStatus Connecting)
       (mkState true false Pending false true None false
                (Pos.succ firstTimerId) hasOnMeta []).

(** [reject(...)]: settles the promise when it is unsettled, and then the
    [catch] branch of [connect] runs [startPolling]. *)
Definition reject (w : State) : State :=
  match phase w with
  | Pending => startPolling w
  | _ => w
  end.

Definition set_timer (b : bool) (w : State) : State :=
  mkState (active w) (connected w) (phase w) (wsClosed w) b (pollId w)
          (intervalLive w) (nextTimerId w) (onMetaGiven w) (calls w).

Definition set_phase (p : Phase) (w : State) : State :=
  mkState (active w) (connected w) p (wsClosed w) (timer w) (pollId w)
          (intervalLive w) (nextTimerId w) (onMetaGiven w) (calls w).

Definition close_ws (w : State) : State :=
  mkState (active w) (connected w) (phase w) true (timer w) (pollId w)
          (intervalLive w) (nextTimerId w) (onMetaGiven w) (calls w).

(** The [message] listener. *)
Definition onMessage (data : Json) (now : Z) (w : State) : State :=
  match data with
  | JsonThrows | JsonNull => w            (* catch: ignore malformed data *)
  | JsonValue p => handleSample (sampleOf p now) w
  end.

(** The [catch] branch of the interval callback. *)
Definition pollFailed (w : State) : State :=
  if negb (active w) then w
  else cleanup (emit (OnError WIFI_FALLBACK_MESSAGE) w).

(** The interval callback, with the outcome of its [fetch]. *)
Definition onPoll (r : FetchResult) (now : Z) (w : State) : State :=
  match r with
  | FetchRejects => pollFailed w
  | Response false _ => pollFailed w      (* throw new Error("Polling failed") *)
  | Response true JsonThrows => pollFailed w
  | Response true JsonNull => pollFailed w
  | Response true (JsonValue p) =>
      let w1 :=
        if onMetaGiven w
        then emit (OnMeta (mkMeta (p_battery_v p) (p_is_connected p))) w
        else w in
      handleSample (sampleOf p now) w1
  end.

Inductive Event :=
| WsOpen
| WsError
| ConnectTimeout
| WsMessage (data : Json) (now : Z)
| WsClose
| PollTick (r : FetchResult) (now : Z)
| Cleanup.

(** One event of the browser, dispatched to the listener that is
    installed for it at that moment (none: the state is unchanged). *)
Definition step (e : Event) (w : State) : State :=
  match e with
  | WsOpen =>
      let w1 := set_timer false w in                 (* clearTimeout(timer) *)
      match phase w1 with
      | Pending => set_phase Streaming w1            (* resolve() *)
      | _ => w1
      end
  | WsError => reject (set_timer false w)
  | ConnectTimeout =>
      if timer w then reject (close_ws (set_timer false w)) else w
  | WsMessage data now =>
      match phase w with
      | Streaming => if wsClosed w then w else onMessage data now w
      | _ => w
      end
  | WsClose =>
      match phase w with
      | Streaming => if active w then emit (OnStatus Disconnected) w else w
      | _ => w
      end
  | PollTick r now => if intervalLive w then onPoll r now w else w
  | Cleanup => cleanup w
  end.

Definition run (es : list Event) (w : State) : State :=
  fold_left (fun s e => step e s) es w.

Definition isOnSample (c : Call) : bool :=
  match c with OnSample _ => true | _ => false end.

Definition isOnError (c : Call) : bool :=
  match c with OnError _ => true | _ => false end.

(** The calls made by a step: the suffix added to [calls]. *)
Definition newCalls (before after : State) : list Call :=
  skipn (length (calls before)) (calls after).

End Wifi.

(* ================================================================== *)
(** ** Connection orchestrator ([useForceStream], hooks/useForceStream.ts)

    Every [source.connect] call starts a transport that owns an [active]
    flag, true until its own [cleanup] runs.  [connect] is [async]: it runs
    up to [await source.connect(...)], and stores the cleanup only when
    that promise fulfils. *)

Module Orchestrator.

Import Wifi.

Record Hook := mkHook
  { status : ConnectionStatus;
    error : option string;
    cleanupRef : option nat;       (* the transport whose cleanup is stored *)
    transports : list bool }.      (* [active] of every transport started *)

Definition initial : Hook := mkHook Disconnected None None [].

Fixpoint set_nth (i : nat) (b : bool) (l : list bool) {struct l} : list bool :=
  match l, i with
  | [], _ => []
  | _ :: l', O => b :: l'
  | x :: l', S i' => x :: set_nth i' b l'
  end.

(** Running the cleanup of transport [i]: [active = false], and
    [handlers.onStatus("disconnected")], which is [setStatus]. *)
Definition runCleanup (i : nat) (h : Hook) : Hook :=
  mkHook Disconnected (error h) (cleanupRef h) (set_nth i false (transports h)).

(** [disconnect]: [cleanupRef.current?.(); cleanupRef.current = null] *)
Definition disconnect (h : Hook) : Hook :=
  let h1 := match cleanupRef h with
            | Some i => runCleanup i h
            | None => h
            end in
  mkHook (status h1) (error h1) None (transports h1).

(** [connect] up to its [await]: [disconnect(); setError(null)], then the
    adapter starts ([onStatus("connecting")]).  Returns the new transport. *)
Definition connectStart (h : Hook) : nat * Hook :=
  let h1 := disconnect h in
  let i := length (transports h1) in
  (i, mkHook Connecting None (cleanupRef h1) (transports h1 ++ [true])).

(** How the awaited adapter promise settles.  A rejection leaves the
    flag of the transport as it is: no cleanup was handed out.  (An
    adapter that throws before it has any state, as the Bluetooth one
    does without platform support, is not covered.) *)
Inductive Settle := Fulfilled | Rejected (message : string).

(** [connect] after its [await]: [cleanupRef.current = cleanup], or the
    [catch] branch. *)
Definition connectSettle (i : nat) (r : Settle) (h : Hook) : Hook :=
  match r with
  | Fulfilled => mkHook (status h) (error h) (Some i) (transports h)
  | Rejected m => mkHook Disconnected (Some m) (cleanupRef h) (transports h)
  end.

(** A [connect()] that runs to completion before anything else happens. *)
Definition connect (r : Settle) (h : Hook) : Hook :=
  let '(i, h1) := connectStart h in connectSettle i r h1.

Inductive Event :=
| Connect (r : Settle)              (* [await connect()] *)
| Disconnect
| ConnectStart                      (* [connect()] reaches its [await] *)
| ConnectSettle (i : nat) (r : Settle).

Definition step (e : Event) (h : Hook) : Hook :=
  match e with
  | Connect r => connect r h
  | Disconnect => disconnect h
  | ConnectStart => snd (connectStart h)
  | ConnectSettle i r => connectSettle i r h
  end.

Definition run (es : list Event) (h : Hook) : Hook :=
  fold_left (fun s e => step e s) es h.

(** Number of transports whose [active] flag is set. *)
Definition activeCount (h : Hook) : nat :=
  length (filter (fun b => b) (transports h)).

(** Every active transport is the one whose cleanup is stored: no
    [connect] is in flight and nothing was left behind. *)
Definition settled (h : Hook) : Prop :=
  forall i, nth_error (transports h) i = Some true -> cleanupRef h = Some i.

End Orchestrator.

(* ================================================================== *)
(** ** Persistence ([loadProfiles], [saveProfiles], ..., storage.ts)

    [localStorage] maps string keys to string values.  [JSON.parse] and
    [JSON.stringify] are parameters; the parsed value is typed as the
    source's [as ProfileData[]] cast asserts. *)

Module LocalStore.

Definition LocalStorage := string -> option string.

Definition getItem (ls : LocalStorage) (key : string) : option string := ls key.

Definition setItem (key value : string) (ls : LocalStorage) : LocalStorage :=
  fun k => if String.eqb k key then Some value else ls k.

Definition STORAGE_KEY : string := "gripforge-profiles".
Definition ACTIVE_KEY : string := "gripforge-active-profile".

(** Outcome of [JSON.parse(raw)]: it throws; the value fails
    [Array.isArray]; or it is an array. *)
Inductive Parsed := ParseThrows | NotAnArray | ParsedArray (ps : list ProfileData).

(** [!raw] on [string | null] *)
Definition falsy (raw : option string) : bool :=
  match raw with
  | None => true
  | Some s => String.eqb s ""
  end.

Definition seed : list ProfileData := [mkProfileData Storage.defaultProfile []].

Section Json.

Variable JSON_parse : string -> Parsed.
Variable JSON_stringify : list ProfileData -> string.

(** [loadProfiles]: the collection and the storage it leaves. *)
Definition loadProfiles (ls : LocalStorage) : list ProfileData * LocalStorage :=
  match getItem ls STORAGE_KEY with
  | None =>
      (seed, setItem ACTIVE_KEY (name Storage.defaultProfile)
                     (setItem STORAGE_KEY (JSON_stringify seed) ls))
  | Some raw =>
      if String.eqb raw "" then
        (seed, setItem ACTIVE_KEY (name Storage.defaultProfile)
                       (setItem STORAGE_KEY (JSON_stringify seed) ls))
      else
        match JSON_parse raw with
        | ParseThrows => (seed, ls)                    (* catch *)
        | NotAnArray => (seed, ls)
        | ParsedArray [] => (seed, ls)                 (* parsed.length === 0 *)
        | ParsedArray parsed => (parsed, ls)
        end
  end.

(** [saveProfiles] *)
Definition saveProfiles (profiles : list ProfileData) (ls : LocalStorage)
  : LocalStorage :=
  setItem STORAGE_KEY (JSON_stringify profiles) ls.

End Json.

(** [loadActiveProfileName]: [localStorage.getItem(ACTIVE_KEY) || defaultProfile.name] *)
Definition loadActiveProfileName (ls : LocalStorage) : string :=
  match getItem ls ACTIVE_KEY with
  | None => name Storage.defaultProfile
  | Some s => if String.eqb s "" then name Storage.defaultProfile else s
  end.

(** [saveActiveProfileName] *)
Definition saveActiveProfileName (n : string) (ls : LocalStorage) : LocalStorage :=
  setItem ACTIVE_KEY n ls.

(** Sample data: a stand-in for the JSON codec on one document, and an
    empty storage. *)
Definition parseStub (doc : list ProfileData) (raw : string) : Parsed :=
  if String.eqb raw "[doc]" then ParsedArray doc
  else if String.eqb raw "{}" then NotAnArray
  else ParseThrows.

Definition stringifyStub (_ : list ProfileData) : string := "[doc]".

Definition emptyStorage : LocalStorage := fun _ => None.

End LocalStore.

(* ================================================================== *)
(** ** Dashboard helpers and profile handlers ([App], App.tsx) *)

Module Dashboard.

Import Recorder.

(** [const clamp = (value, min, max) => Math.min(Math.max(value, min), max)] *)
Definition clamp (value min max : Q) : Q := Qmin (Qmax value min) max.

(** [GaugeArc]: [percentage = clamp(value, 0, max) / max] *)
Definition gaugePercentage (value max : Q) : Q := (clamp value 0 max / max)%Q.

(** [gaugeMax] *)
Definition gaugeMax (preferredUnits_ : Units) : Q :=
  match preferredUnits_ with kg => 100 | lbf => 220 | N => 980 end%Q.

(** [Math.max(...xs)] on numbers; [None] is the [-Infinity] of no argument. *)
Definition Math_max_of (args : list Q) : option Q :=
  match args with
  | [] => None
  | x :: xs => Some (Math_max x xs)
  end.

Definition Math_max_ms (args : list Z) : option Z :=
  match args with
  | [] => None
  | x :: xs => Some (fold_left Z.max xs x)
  end.

Record Stats := mkStats
  { maxGrip : Q; meanForce : Q; longestHold : Z; sessionCount : nat }.

(** The [stats] memo over the active profile's sessions. *)
Definition stats (profileSessions : list SessionSummary) : Stats :=
  let maxGrip_ :=
    match Math_max_of (map maxForce profileSessions ++ [0%Q]) with
    | Some m => m
    | None => 0%Q
    end in
  let n := length profileSessions in
  let avgForce_ :=
    (fold_left (fun sum session => sum + avgForce session) profileSessions 0
     / inject_Z (Z.of_nat (if Nat.eqb n 0 then 1 else n)))%Q in   (* length || 1 *)
  let longestHold_ :=
    match Math_max_ms (map longestHoldMs profileSessions ++ [0]) with
    | Some m => m
    | None => 0
    end in
  mkStats maxGrip_ avgForce_ longestHold_ n.

Definition set_activeProfileName (n : string) (st : AppState) : AppState :=
  mkAppState (profiles st) n (activeMode st) (sessionHand st)
             (sessionActive st) (sessionSamplesRef st) (sessionSamples st)
             (sessionStartRef st).

(** [handleProfileChange] (its [localStorage] write is [saveActiveProfileName]) *)
Definition handleProfileChange (n : string) (st : AppState) : AppState :=
  set_activeProfileName n st.

(** [handleAddProfile], [trimmed] being [newProfileName.trim()].  [None]:
    reading [activeProfile.profile] of an empty collection throws. *)
Definition handleAddProfile (trimmed : string) (st : AppState) : option AppState :=
  if String.eqb trimmed "" then Some st
  else
    match activeProfile st with
    | None => None
    | Some ap =>
        let p := profile ap in
        let updatedProfile :=
          mkProfileConfig trimmed (endurance p) (pyramid p) (preferredUnits p)
                          (password p) (friends p) in
        Some (set_activeProfileName trimmed
                (set_profiles (Storage.addProfile (profiles st) updatedProfile) st))
    end.

(** The three handlers that edit the active profile's configuration all end
    in [setProfiles(current => updateProfile(current, updated))]. *)
Definition editActiveProfile (edit : ProfileConfig -> ProfileConfig)
           (st : AppState) : option AppState :=
  match activeProfile st with
  | None => None
  | Some ap =>
      Some (set_profiles (Storage.updateProfile (profiles st) (edit (profile ap))) st)
  end.

(** [handleUnitChange] *)
Definition handleUnitChange (u : Units) : AppState -> option AppState :=
  editActiveProfile (fun p =>
    mkProfileConfig (name p) (endurance p) (pyramid p) u (password p) (friends p)).

(** [handleTargetChange] *)
Definition handleTargetChange (value : Q) : AppState -> option AppState :=
  editActiveProfile (fun p =>
    mkProfileConfig (name p) (mkEndurance value) (pyramid p) (preferredUnits p)
                    (password p) (friends p)).

End Dashboard.

(* ================================================================== *)
(** ** Views of a profile collection used to state its invariants *)

Module Collection.

(** The profile names, in display order. *)
Definition names (ps : list ProfileData) : list string :=
  map (fun e => name (profile e)) ps.

(** Number of stored summaries, over all profiles. *)
Definition sessionTotal (ps : list ProfileData) : nat :=
  fold_right (fun e n => (length (sessions e) + n)%nat) 0%nat ps.

End Collection.

(* ================================================================== *)
(** ** Clock readings *)

Module Timeline.

(** The instants [ts] follow [t] and one another without going back. *)
Fixpoint ascendingFrom (t : Z) (ts : list Z) : Prop :=
  match ts with
  | [] => True
  | u :: ts' => t <= u /\ ascendingFrom u ts'
  end.

End Timeline.

(* ================================================================== *)
(** ** Reading a call log of the Wi-Fi adapter *)

Module WifiTrace.

Import Wifi.

Definition isConnectedStatus (c : Call) : bool :=
  match c with OnStatus Connected => true | _ => false end.

(** A log is well ordered when [onStatus("connected")] occurs at most once
    and no [onSample] occurs before it; [seen] tells whether it has
    occurred already. *)
Fixpoint wellOrdered (seen : bool) (cs : list Call) : bool :=
  match cs with
  | [] => true
  | OnStatus Connected :: cs' => negb seen && wellOrdered true cs'
  | OnSample _ :: cs' => seen && wellOrdered seen cs'
  | _ :: cs' => wellOrdered seen cs'
  end.

(** What holds of the adapter after any sequence of events. *)
Definition Inv (w : State) : Prop :=
  existsb isConnectedStatus (calls w) = connected w /\
  wellOrdered false (calls w) = true /\
  (filter isOnError (calls w) = [] \/
   (active w = false /\ phase w = Polling /\ intervalLive w = false /\
    filter isOnError (calls w) = [OnError WIFI_FALLBACK_MESSAGE])) /\
  (intervalLive w = true -> phase w = Polling) /\
  (phase w = Polling -> pollId w <> None) /\
  (timer w = true -> phase w = Pending).

(** A connection that was cleaned up after its connect promise settled. *)
Definition Quiet (w : State) : Prop :=
  active w = false /\ wsClosed w = true /\ intervalLive w = false /\
  phase w <> Pending.

End WifiTrace.

(* ================================================================== *)
(** ** Bluetooth transport adapter ([createBluetoothSource], dataSource.ts)

    The handshake of [connect] is a chain of awaited platform calls, any of
    which may reject; it is given by where it stops.  [decodeForcePayload]
    is given by its result: the parsed number, or [None] for [null]. *)

Module Bluetooth.

Import Wifi.

Definition UNSUPPORTED_MESSAGE : string :=
  "Bluetooth mode requires Desktop Chrome or Bluefy on iOS.".

Definition NO_SERVER_MESSAGE : string :=
  "Unable to connect to GripForge device.".

Inductive Handshake :=
| NoBluetooth                          (* ["bluetooth" in navigator] is false *)
| RequestRejected                      (* [requestDevice] rejects *)
| GattRejected                         (* [device.gatt.connect()] rejects *)
| NoServer                             (* [device.gatt?.connect()] is undefined *)
| ServiceRejected                      (* [getPrimaryService] rejects *)
| CharacteristicRejected               (* [getCharacteristic] rejects *)
| ReadRejected                         (* [readValue] rejects *)
| NotifyRejected (first : option Q)    (* [startNotifications] rejects *)
| Completed (first : option Q).

(** How far a handshake gets: the number of awaited calls that fulfil. *)
Definition progress (h : Handshake) : nat :=
  match h with
  | NoBluetooth | RequestRejected => 0
  | GattRejected | NoServer => 1
  | ServiceRejected => 2
  | CharacteristicRejected => 3
  | ReadRejected => 4
  | NotifyRejected _ => 5
  | Completed _ => 6
  end.

Definition firstRead (h : Handshake) : option Q :=
  match h with
  | NotifyRejected first | Completed first => first
  | _ => None
  end.

Record State := mkState
  { active : bool;
    deviceListener : bool;     (* the [gattserverdisconnected] listener is installed *)
    characteristic : bool;     (* [characteristic] is not null *)
    subscribed : bool;         (* the [characteristicvaluechanged] listener is installed *)
    calls : list Call }.

(** [connect] either throws, with the message of the [Error] it made itself
    ([None]: the platform's exception), or returns its [cleanup]. *)
Inductive Outcome := Throws (message : option string) | Returns.

Definition sampleAt (f : Q) (now : Z) : ForceSample := mkForceSample f lbf now.

(** [connect], with [now = Date.now()] at the first read. *)
Definition connect (h : Handshake) (now : Z) : State * Outcome :=
  match h with
  | NoBluetooth =>
      (mkState false false false false [], Throws (Some UNSUPPORTED_MESSAGE))
  | _ =>
      let n := progress h in
      let calls0 := [OnStatus Connecting] in
      let calls1 :=
        match firstRead h with
        | Some f => calls0 ++ [OnSample (sampleAt f now)]
        | None => calls0
        end in
      match h with
      | Completed _ =>
          (mkState true true true true (calls1 ++ [OnStatus Connected]), Returns)
      | NoServer =>
          (mkState true true false false calls1, Throws (Some NO_SERVER_MESSAGE))
      | _ =>
          (mkState true (Nat.leb 1 n) (Nat.leb 4 n) false calls1, Throws None)
      end
  end.

Definition emit (c : Call) (b : State) : State :=
  mkState (active b) (deviceListener b) (characteristic b) (subscribed b)
          (calls b ++ [c]).

(** [const cleanup = () => {...}] *)
Definition cleanup (b : State) : State :=
  emit (OnStatus Disconnected)
       (mkState false (deviceListener b) (characteristic b)
                (if characteristic b then false else subscribed b) (calls b)).

(** [const handleValue = (event) => {...}]; [value] is [None] when
    [target.value] is missing, else the result of [decodeForcePayload]. *)
Definition handleValue (value : option (option Q)) (now : Z) (b : State) : State :=
  if negb (active b) then b
  else
    match value with
    | None => b
    | Some None => b
    | Some (Some parsed) =>
        emit (OnSample (sampleAt parsed now)) (emit (OnStatus Connected) b)
    end.

Inductive Event :=
| ValueChanged (value : option (option Q)) (now : Z)
| GattDisconnected
| Cleanup.

Definition step (e : Event) (b : State) : State :=
  match e with
  | ValueChanged value now =>
      if subscribed b then handleValue value now b else b
  | GattDisconnected =>
      if deviceListener b
      then (if active b then emit (OnStatus Disconnected) b else b)
      else b
  | Cleanup => cleanup b
  end.

Definition run (es : list Event) (b : State) : State :=
  fold_left (fun s e => step e s) es b.

(** The calls this adapter makes: status changes, and samples in lbf. *)
Definition allowed (c : Call) : Prop :=
  match c with
  | OnStatus _ => True
  | OnSample s => units s = lbf
  | OnError _ | OnMeta _ => False
  end.

End Bluetooth.

(* ================================================================== *)
(** ** Traces of completed orchestrator calls *)

Module OrchestratorTrace.

Import Orchestrator.

(** A call that has run to completion: [await connect()] whose adapter
    promise fulfilled, or [disconnect()]. *)
Definition completed (e : Event) : bool :=
  match e with
  | Connect Fulfilled | Disconnect => true
  | _ => false
  end.

End OrchestratorTrace.

(* ================================================================== *)
(** ** Session recorder with running accumulators (the [App] variant of
       App.tsx that keeps [sumRef], [maxRef], [holdStartRef] and
       [longestHoldRef]) *)

Module Accumulating.

Record Metrics := mkMetrics
  { m_maxForce : Q; m_avgForce : Q; m_longestHoldMs : Z; m_durationMs : Z }.

Record AppState := mkAppState
  { profiles : list ProfileData;
    activeProfileName : string;
    activeMode : TrainingMode;
    sessionHand : Hand;
    sessionActive : bool;
    sessionMetrics : Metrics;
    sessionSamplesRef : list ForceSample;
    sumRef : Q;
    maxRef : Q;
    holdStartRef : option Z;
    longestHoldRef : Z }.

(** [activeProfileData?.profile], without a fallback entry. *)
Definition activeProfile (st : AppState) : option ProfileConfig :=
  option_map profile (find (Storage.named (activeProfileName st)) (profiles st)).

(** [activeProfile?.endurance.targetForce ?? 0] *)
Definition target (st : AppState) : Q :=
  match activeProfile st with
  | Some p => targetForce (endurance p)
  | None => 0%Q
  end.

Definition isEndurance (m : TrainingMode) : bool :=
  match m with ModeEndurance => true | _ => false end.

Definition with_session (active : bool) (metrics : Metrics)
           (samples : list ForceSample) (sum mx : Q) (holdStart : option Z)
           (longest : Z) (st : AppState) : AppState :=
  mkAppState (profiles st) (activeProfileName st) (activeMode st)
             (sessionHand st) active metrics samples sum mx holdStart longest.

(** Body of the session effect, run for a new [forceData] reading. *)
Definition sessionEffect (forceData : ForceSample) (st : AppState) : AppState :=
  if negb (sessionActive st) then st
  else
    let sample := forceData in
    let samples := sessionSamplesRef st ++ [sample] in
    let sum := (sumRef st + force sample)%Q in
    let mx := Qmax (maxRef st) (force sample) in
    let hold :=
      if isEndurance (activeMode st) then
        if Qle_bool (target st) (force sample) then
          match holdStartRef st with
          | None => (Some (timestamp_ms sample), longestHoldRef st)
          | Some h => (Some h, longestHoldRef st)
          end
        else
          match holdStartRef st with
          | Some h =>
              (None, Z.max (longestHoldRef st) (timestamp_ms sample - h))
          | None => (None, longestHoldRef st)
          end
      else (holdStartRef st, longestHoldRef st) in
    let durationMs_ :=
      if Nat.ltb 1 (length samples)
      then timestamp_ms sample - timestamp_ms (hd sample samples)
      else 0 in
    let avgForce_ := (sum / inject_Z (Z.of_nat (length samples)))%Q in
    with_session true (mkMetrics mx avgForce_ (snd hold) durationMs_)
                 samples sum mx (fst hold) (snd hold) st.

(** [startSession] (the optional POST and its [catch] leave no trace). *)
Definition startSession (st : AppState) : AppState :=
  if sessionActive st then st
  else with_session true (mkMetrics 0 0 0 0) [] 0%Q 0%Q None 0 st.

(** [stopSession], with [newId = createId()]. *)
Definition stopSession (newId : string) (st : AppState)
  : option SessionSummary * AppState :=
  if negb (sessionActive st) then (None, st)
  else
    let st1 := with_session false (sessionMetrics st) (sessionSamplesRef st)
                            (sumRef st) (maxRef st) (holdStartRef st)
                            (longestHoldRef st) st in
    match sessionSamplesRef st with
    | [] => (None, st1)
    | first :: _ =>
        let samples := sessionSamplesRef st in
        let lastSample := last samples first in
        let durationMs_ := timestamp_ms lastSample - timestamp_ms first in
        let avgForce_ := (sumRef st / inject_Z (Z.of_nat (length samples)))%Q in
        let maxForce_ := maxRef st in
        let open_ := if isEndurance (activeMode st) then holdStartRef st else None in
        let longestHoldMs_ :=
          match open_ with
          | Some h => Z.max (longestHoldRef st) (timestamp_ms lastSample - h)
          | None => longestHoldRef st
          end in
        let holdStart :=
          match open_ with Some _ => None | None => holdStartRef st end in
        let session :=
          mkSessionSummary newId (activeMode st) (sessionHand st)
                           (timestamp_ms first) durationMs_ maxForce_ avgForce_
                           longestHoldMs_ (units first) in
        let updated :=
          Storage.addSession (profiles st) (activeProfileName st) session in
        (Some session,
         mkAppState updated (activeProfileName st) (activeMode st)
                    (sessionHand st) false (sessionMetrics st) samples
                    (sumRef st) (maxRef st) holdStart (longestHoldRef st))
    end.

Definition feed (readings : list ForceSample) (st : AppState) : AppState :=
  fold_left (fun s r => sessionEffect r s) readings st.

(** A whole session from an idle state. *)
Definition runSession (readings : list ForceSample) (newId : string)
           (st : AppState) : option SessionSummary * AppState :=
  stopSession newId (feed readings (startSession st)).



End Accumulating.

(* ================================================================== *)
(** ** Reference notions of the specification, and sample data *)

Module Spec.

(** The sum of a sequence of forces. *)
Definition sumForces (fs : list Q) : Q := fold_right Qplus 0%Q fs.

(** [m] is the maximum of the sequence [fs]: one of its members, and no
    member is larger. *)
Definition isMaxOf (m : Q) (fs : list Q) : Prop :=
  In m fs /\ forall f, In f fs -> (f <= m)%Q.

End Spec.

Module Sample.

Import Recorder.

Definition alex : ProfileConfig :=
  mkProfileConfig "alex" (mkEndurance 15%Q) (mkPyramid []) kg None [].

Definition sessionAt (n : string) (t : Z) : SessionSummary :=
  mkSessionSummary n ModeFree Right t 1000 30%Q 20%Q 0 kg.

Definition s1 : SessionSummary := sessionAt "s1" 2000.
Definition s2 : SessionSummary := sessionAt "s2" 1000.
Definition newest : SessionSummary := sessionAt "S" 3000.

Definition bryceEntry : ProfileData :=
  mkProfileData Storage.defaultProfile [s1; s2].
Definition alexEntry : ProfileData := mkProfileData alex [].

(** An idle application on the two profiles, [who] being active. *)
Definition idle (who : string) : AppState :=
  mkAppState [bryceEntry; alexEntry] who ModeEndurance Right false [] [] None.

(** The scenario of four readings, [t0] being the session origin. *)
Definition fourReadings (t0 : Z) : list (Z * Q) :=
  [(t0 + 0, 10%Q); (t0 + 100, 20%Q); (t0 + 200, 12%Q); (t0 + 300, 25%Q)].

(** 801 readings, 100 ms apart: one of 1000, then 800 that alternate
    between 10 and 20. *)
Definition longReadings : list (Z * Q) :=
  (0, 1000%Q) ::
  map (fun i => (100 * Z.of_nat i, if Nat.even i then 20%Q else 10%Q))
      (seq 1 800).

End Sample.

(* ================================================================== *)
(** ** When the session code runs ([App], App.tsx)

    The session sample effect is a [useEffect] with the dependency list
    [[convertedForce, preferredUnits, sessionActive]]: after a render React
    runs its body only when one of the three differs from its value at the
    previous render.  A view is the component state together with the
    hook's current [sample] and the dependency values of the last commit.
    The session button is
    [onClick={sessionActive ? stopSessionHandler : startSessionHandler}].
    Events are taken one at a time: a handler, with the promise it awaits
    settled, and the render that follows it complete before the next
    sample or click. *)

Module Lifecycle.

Import Recorder.

Record Deps := mkDeps
  { d_convertedForce : Q; d_preferredUnits : Units; d_sessionActive : bool }.

(** React compares the dependencies one by one, with [Object.is]: equal
    numbers, equal strings, equal booleans. *)
Definition sameDeps (a b : Deps) : bool :=
  Qeq_bool (d_convertedForce a) (d_convertedForce b) &&
  Units_eqb (d_preferredUnits a) (d_preferredUnits b) &&
  Bool.eqb (d_sessionActive a) (d_sessionActive b).

Record View := mkView
  { app : AppState;
    sample : ForceSample;           (* [sample] of [useForceStream] *)
    committed : option Deps }.      (* [None] before the first render *)

(** [convertForce(sample.force, sample.units, preferredUnits)] *)
Definition convertedFor (pu : Units) (s : ForceSample) : Q :=
  Converter.convertForce (force s) (units s) pu.

(** The values a render computes for the effect; [None]: the render throws
    on [activeProfile.profile] of an empty collection. *)
Definition render (v : View) : option Deps :=
  match activeProfile (app v) with
  | None => None
  | Some ap =>
      let pu := preferredUnits (profile ap) in
      Some (mkDeps (convertedFor pu (sample v)) pu (sessionActive (app v)))
  end.

(** A render and its commit; [now] is the [Date.now()] the effect reads
    when it runs. *)
Definition commit (now : Z) (v : View) : option View :=
  match render v with
  | None => None
  | Some d =>
      let changed :=
        match committed v with
        | None => true
        | Some d0 => negb (sameDeps d0 d)
        end in
      Some (mkView
              (if changed
               then sessionSampleEffect now (d_convertedForce d)
                                        (d_preferredUnits d) (app v)
               else app v)
              (sample v) (Some d))
  end.

(** The hook delivers a sample ([setSample]) and the component renders. *)
Definition sampleArrives (s : ForceSample) (now : Z) (v : View) : option View :=
  commit now (mkView (app v) s (committed v)).

(** A click on the session button, at [now]; the render that follows
    commits at [nowEffect].  While idle it starts a session; while
    recording it stops it, [notified] and [newId] being as for
    [stopSessionHandler]. *)
Definition clickSession (now nowEffect : Z) (notified : bool) (newId : string)
           (v : View) : option (option StopResult * View) :=
  if sessionActive (app v) then
    let r := stopSessionHandler notified newId now (app v) in
    match commit nowEffect (mkView (state r) (sample v) (committed v)) with
    | Some v' => Some (Some r, v')
    | None => None
    end
  else
    match commit nowEffect
                 (mkView (startSessionHandler now (app v)) (sample v) (committed v)) with
    | Some v' => Some (None, v')
    | None => None
    end.

Fixpoint arrivals (rs : list (ForceSample * Z)) (v : View) : option View :=
  match rs with
  | [] => Some v
  | r :: rs' =>
      match sampleArrives (fst r) (snd r) v with
      | Some v1 => arrivals rs' v1
      | None => None
      end
  end.

(** A session up to its stop: a click at [t0] on the idle application,
    then the samples [rs] arriving.  (A click while idle reads neither the
    notification outcome nor an id.) *)
Definition started (t0 tEffect : Z) (rs : list (ForceSample * Z)) (v : View)
  : option View :=
  match clickSession t0 tEffect true EmptyString v with
  | Some (_, v1) => arrivals rs v1
  | None => None
  end.

(** A session: started at [t0], the samples [rs] arriving, a click at
    [tstop]. *)
Definition session (t0 tEffect : Z) (rs : list (ForceSample * Z))
           (notified : bool) (newId : string) (tstop tAfter : Z) (v : View)
  : option (option StopResult * View) :=
  match started t0 tEffect rs v with
  | Some v2 => clickSession tstop tAfter notified newId v2
  | None => None
  end.

Inductive Event :=
| Arrives (s : ForceSample) (now : Z)
| Clicks (now nowEffect : Z) (notified : bool) (newId : string).

Definition step (e : Event) (v : View) : option View :=
  match e with
  | Arrives s now => sampleArrives s now v
  | Clicks now nowEffect notified newId =>
      option_map snd (clickSession now nowEffect notified newId v)
  end.

Fixpoint run (es : list Event) (v : View) : option View :=
  match es with
  | [] => Some v
  | e :: es' =>
      match step e v with
      | Some v1 => run es' v1
      | None => None
      end
  end.



(** A view in which a session is recording: the committed force is [p]
    and the buffered forces are the last [BUFFER_POINTS] of [F]. *)
Definition recordingView (ap : ProfileData) (p : Q) (F : list Q) (v : View)
  : Prop :=
  activeProfile (app v) = Some ap /\
  sessionActive (app v) = true /\
  committed v = Some (mkDeps p (preferredUnits (profile ap)) true) /\
  map s_force (sessionSamplesRef (app v)) = slice_last BUFFER_POINTS F.

(** A view whose last commit is the render of its present state. *)
Definition settledView (v : View) : Prop :=
  render v <> None /\ committed v = render v.

(** A settled view in which a recording session has a sample. *)
Definition Good (v : View) : Prop :=
  settledView v /\
  (sessionActive (app v) = true -> sessionSamplesRef (app v) <> []).

(** Sample data: the idle application on the two sample profiles, the
    hook holding a reading of 10 kg. *)
Definition idleView (who : string) : View :=
  mkView (Sample.idle who) (mkForceSample 10 kg 0)
         (Some (mkDeps 10 kg false)).

(** The application as mounted, before any sample arrived: the hook holds
    its initial sample [{ force: 0, units: "kg", timestamp_ms }]. *)
Definition mountedView (who : string) : View :=
  mkView (Sample.idle who) (mkForceSample 0 kg 0)
         (Some (mkDeps 0 kg false)).


End Lifecycle.

(* ================================================================== *)
(** * Properties *)

Lemma Units_eqb_spec (a b : Units) : reflect (a = b) (Units_eqb a b).
Proof. destruct a, b; constructor; congruence. Qed.

(* ------------------------------------------------------------------ *)
(** ** Unit converter *)

Section ConverterFacts.

Import Converter.
Local Open Scope Q_scope.

Lemma LBF_PER_KG_nonzero : ~ LBF_PER_KG == 0.
Proof. discriminate. Qed.

Lemma N_PER_KG_nonzero : ~ N_PER_KG == 0.
Proof. discriminate. Qed.

(** C3. [convertForce v u u] is [v] itself for every unit [u], and for
    every pair of units [a], [b] the round trip
    [convertForce (convertForce v a b) b a] equals [v] as a rational
    (exact arithmetic with the constants 2.20462 and 9.80665). *)
Theorem convertForce_identity_and_roundtrip (v : Q) (a b : Units) :
  convertForce v a a = v /\
  convertForce (convertForce v a b) b a == v.
Proof.
  split.
  - unfold convertForce. destruct a; reflexivity.
  - destruct a, b; unfold convertForce; simpl; try reflexivity;
      field; repeat split; discriminate.
Qed.

End ConverterFacts.

(* ------------------------------------------------------------------ *)
(** ** Profile store *)

Section StorageFacts.

Import Storage.

Lemma named_true (n : string) (e : ProfileData) :
  named n e = true <-> name (profile e) = n.
Proof. unfold named. apply String.eqb_eq. Qed.

Lemma named_false (n : string) (e : ProfileData) :
  named n e = false <-> name (profile e) <> n.
Proof. unfold named. apply String.eqb_neq. Qed.

Lemma some_named_false (n : string) (ps : list ProfileData) :
  (forall e, In e ps -> name (profile e) <> n) ->
  existsb (named n) ps = false.
Proof.
  induction ps as [|e ps IH]; intros H; simpl; [reflexivity|].
  rewrite (proj2 (named_false n e)) by (apply H; left; reflexivity).
  apply IH. intros e' He'. apply H. right. exact He'.
Qed.

(** C8. [addProfile] returns the collection as it is when an entry with
    the new profile's name exists, and otherwise the collection with the
    entry [{profile: config, sessions: []}] appended at its end. *)
Theorem addProfile_duplicate_or_append
        (collection : list ProfileData) (config : ProfileConfig) :
  ((exists e, In e collection /\ name (profile e) = name config) ->
   addProfile collection config = collection) /\
  ((forall e, In e collection -> name (profile e) <> name config) ->
   addProfile collection config = collection ++ [mkProfileData config []]).
Proof.
  unfold addProfile. split.
  - intros [e [Hin Hn]].
    assert (H : existsb (named (name config)) collection = true).
    { apply existsb_exists. exists e. split; [exact Hin|].
      apply named_true. exact Hn. }
    rewrite H. reflexivity.
  - intros H. rewrite (some_named_false _ _ H). reflexivity.
Qed.

Lemma addSession_nth (ps : list ProfileData) (n : string) (S : SessionSummary)
      (i : nat) :
  nth_error (addSession ps n S) i =
  option_map (fun entry =>
                if named n entry
                then mkProfileData (profile entry) (S :: sessions entry)
                else entry) (nth_error ps i).
Proof. unfold addSession. apply nth_error_map. Qed.

(** C9. [addSession] keeps the length and the order of the collection;
    an entry named [profileName] gets [summary] in front of its sessions
    (so [s1; s2] becomes [summary; s1; s2]); every other entry is the
    same; and with no entry of that name the collection is returned as it
    is. *)
Theorem addSession_prepends
        (collection : list ProfileData) (profileName : string)
        (summary : SessionSummary) :
  length (addSession collection profileName summary) = length collection /\
  (forall i e, nth_error collection i = Some e ->
               name (profile e) = profileName ->
               nth_error (addSession collection profileName summary) i =
               Some (mkProfileData (profile e) (summary :: sessions e))) /\
  (forall i e, nth_error collection i = Some e ->
               name (profile e) <> profileName ->
               nth_error (addSession collection profileName summary) i = Some e) /\
  ((forall e, In e collection -> name (profile e) <> profileName) ->
   addSession collection profileName summary = collection).
Proof.
  repeat split.
  - unfold addSession. apply length_map.
  - intros i e Hi Hn. rewrite addSession_nth, Hi. simpl.
    rewrite (proj2 (named_true profileName e) Hn). reflexivity.
  - intros i e Hi Hn. rewrite addSession_nth, Hi. simpl.
    rewrite (proj2 (named_false profileName e) Hn). reflexivity.
  - intros H. unfold addSession.
    induction collection as [|e ps IH]; simpl; [reflexivity|].
    rewrite (proj2 (named_false profileName e)) by (apply H; left; reflexivity).
    f_equal. apply IH. intros e' He'. apply H. right. exact He'.
Qed.


Section StorageWitnesses.

Import Sample.

Lemma addProfile_duplicate_or_append_witness :
  addProfile [bryceEntry] defaultProfile = [bryceEntry] /\
  addProfile [bryceEntry] alex = [bryceEntry; mkProfileData alex []].
Proof.
  split.
  - apply (proj1 (addProfile_duplicate_or_append [bryceEntry] defaultProfile)).
    exists bryceEntry. split; [left; reflexivity | reflexivity].
  - apply (proj2 (addProfile_duplicate_or_append [bryceEntry] alex)).
    intros e [<- | []]. simpl. discriminate.
Defined.

Lemma addSession_prepends_witness :
  nth_error (addSession [bryceEntry; alexEntry] "bryce" newest) 0 =
    Some (mkProfileData defaultProfile [newest; s1; s2]) /\
  nth_error (addSession [bryceEntry; alexEntry] "bryce" newest) 1 =
    Some alexEntry /\
  addSession [bryceEntry; alexEntry] "zoe" newest = [bryceEntry; alexEntry].
Proof.
  pose proof (addSession_prepends [bryceEntry; alexEntry] "bryce" newest)
    as [_ [Hhit [Hmiss _]]].
  pose proof (addSession_prepends [bryceEntry; alexEntry] "zoe" newest)
    as [_ [_ [_ Hnone]]].
  split; [|split].
  - apply (Hhit 0%nat bryceEntry); reflexivity.
  - apply (Hmiss 1%nat alexEntry); [reflexivity | simpl; discriminate].
  - apply Hnone. intros e [<- | [<- | []]]; simpl; discriminate.
Defined.

End StorageWitnesses.

End StorageFacts.

(* ------------------------------------------------------------------ *)
(** ** Session recorder *)

Section RecorderFacts.

Import Recorder Spec.

(** *** The bounded buffer *)

Lemma slice_last_all {A} (n : nat) (xs : list A) :
  (length xs <= n)%nat -> slice_last n xs = xs.
Proof.
  intros H. unfold slice_last.
  replace (length xs - n)%nat with 0%nat by lia. reflexivity.
Qed.

Lemma slice_last_length {A} (n : nat) (xs : list A) :
  length (slice_last n xs) = Nat.min (length xs) n.
Proof. unfold slice_last. rewrite length_skipn. lia. Qed.

Lemma slice_last_app {A} (n : nat) (xs ys : list A) :
  slice_last n (slice_last n xs ++ ys) = slice_last n (xs ++ ys).
Proof.
  destruct (Nat.le_gt_cases (length xs) n) as [Hle | Hgt].
  - rewrite (slice_last_all n xs Hle). reflexivity.
  - unfold slice_last at 1.
    rewrite length_app, slice_last_length.
    replace (Nat.min (length xs) n + length ys - n)%nat
      with (length ys) by lia.
    unfold slice_last.
    rewrite length_app.
    replace (length xs + length ys - n)%nat
      with (length ys + (length xs - n))%nat by lia.
    rewrite <- skipn_skipn.
    f_equal.
    rewrite skipn_app.
    replace (length xs - n - length xs)%nat with 0%nat by lia.
    reflexivity.
Qed.

Lemma slice_last_map {A B} (f : A -> B) (n : nat) (xs : list A) :
  map f (slice_last n xs) = slice_last n (map f xs).
Proof. unfold slice_last. rewrite length_map, skipn_map. reflexivity. Qed.

(** *** Feeding samples *)

Lemma start_recording t0 st : recording t0 st (startSessionHandler t0 st).
Proof. unfold recording. simpl. repeat split; lia. Qed.

Lemma effect_recording t0 st st' now f pu :
  recording t0 st st' ->
  recording t0 st (sessionSampleEffect now f pu st') /\
  sessionSamplesRef (sessionSampleEffect now f pu st') =
    slice_last BUFFER_POINTS (sessionSamplesRef st' ++ [recorded t0 pu (now, f)]).
Proof.
  intros (Ha & Hs & Hp & Hn & Hm & Hh & Hl).
  unfold sessionSampleEffect, recording. rewrite Ha, Hs. simpl.
  repeat split; try assumption.
  rewrite slice_last_length. lia.
Qed.

Lemma feed_recording t0 pu rs : forall st st',
  recording t0 st st' ->
  recording t0 st (feed pu rs st') /\
  sessionSamplesRef (feed pu rs st') =
    slice_last BUFFER_POINTS (sessionSamplesRef st' ++ map (recorded t0 pu) rs).
Proof.
  induction rs as [|[now f] rs IH]; intros st st' Hrec.
  - simpl. rewrite app_nil_r. split; [exact Hrec|].
    symmetry. apply slice_last_all. apply Hrec.
  - destruct (effect_recording t0 st st' now f pu Hrec) as [Hrec' Hbuf].
    destruct (IH st _ Hrec') as [Hrec'' Hbuf''].
    unfold feed in *. simpl. split; [exact Hrec''|].
    rewrite Hbuf'', Hbuf, slice_last_app, <- app_assoc. reflexivity.
Qed.

(** The buffer at the end of a session that was started at [t0] and fed
    [rs]: the last [BUFFER_POINTS] readings. *)
Lemma session_buffer t0 pu rs st :
  let st' := feed pu rs (startSessionHandler t0 st) in
  recording t0 st st' /\
  sessionSamplesRef st' = slice_last BUFFER_POINTS (map (recorded t0 pu) rs).
Proof.
  destruct (feed_recording t0 pu rs st _ (start_recording t0 st)) as [H1 H2].
  split; [exact H1 | exact H2].
Qed.

Lemma recording_activeProfile t0 st st' :
  recording t0 st st' -> activeProfile st' = activeProfile st.
Proof.
  intros (_ & _ & Hp & Hn & _). unfold activeProfile. rewrite Hp, Hn. reflexivity.
Qed.

(** *** The statistics of a summary *)

Lemma fold_sum_shift (l : list SessionSample) (a : Q) :
  (fold_left (fun sum s => sum + s_force s) l a ==
   a + sumForces (map s_force l))%Q.
Proof.
  revert a. induction l as [|s l IH]; intros a; simpl.
  - ring.
  - rewrite IH. ring.
Qed.

Lemma reduce_sum_spec (samples : list SessionSample) :
  (reduce_sum samples == sumForces (map s_force samples))%Q.
Proof. unfold reduce_sum. rewrite fold_sum_shift. ring. Qed.

Lemma Qmax_cases (a b : Q) : Qmax a b = a \/ Qmax a b = b.
Proof.
  unfold Qmax, GenericMinMax.gmax. destruct (a ?= b)%Q; auto.
Qed.

Lemma Math_max_spec (xs : list Q) : forall x, isMaxOf (Math_max x xs) (x :: xs).
Proof.
  unfold Math_max, isMaxOf.
  induction xs as [|y ys IH]; intros x; simpl.
  - split; [left; reflexivity|]. intros f [<- | []]. apply Qle_refl.
  - destruct (IH (Qmax x y)) as [Hin Hub]. split.
    + destruct Hin as [Hin | Hin]; [|right; right; exact Hin].
      destruct (Qmax_cases x y) as [E | E]; [left | right; left]; congruence.
    + intros f [<- | [<- | Hf]].
      * eapply Qle_trans; [apply Q.le_max_l|]. apply Hub. left. reflexivity.
      * eapply Qle_trans; [apply Q.le_max_r|]. apply Hub. left. reflexivity.
      * apply Hub. right. exact Hf.
Qed.

Lemma buildSummary_stats newId now ap md hd_ first rest :
  let s := buildSummary newId now ap md hd_ first rest in
  let fs := map s_force (first :: rest) in
  (avgForce s == sumForces fs / inject_Z (Z.of_nat (length fs)))%Q /\
  isMaxOf (maxForce s) fs.
Proof.
  simpl. split.
  - rewrite length_map. rewrite reduce_sum_spec. reflexivity.
  - apply Math_max_spec.
Qed.

Lemma runSession_summary t0 pu rs newId tstop st ap :
  activeProfile st = Some ap -> rs <> [] ->
  exists first rest,
    sessionSamplesRef (feed pu rs (startSessionHandler t0 st)) = first :: rest /\
    first :: rest = slice_last BUFFER_POINTS (map (recorded t0 pu) rs) /\
    summary (runSession t0 pu rs newId tstop st) =
      Some (buildSummary newId tstop ap (activeMode st) (sessionHand st)
                         first rest).
Proof.
  intros Hap Hne.
  destruct (session_buffer t0 pu rs st) as [Hrec Hbuf].
  unfold runSession, stopSessionHandler. simpl negb. cbv iota.
  rewrite (recording_activeProfile _ _ _ Hrec), Hap.
  destruct Hrec as (_ & _ & _ & _ & Hm & Hh & _). rewrite Hm, Hh.
  destruct (sessionSamplesRef (feed pu rs (startSessionHandler t0 st)))
    as [|first rest] eqn:E.
  - exfalso. apply (f_equal (@length _)) in Hbuf.
    rewrite slice_last_length, length_map in Hbuf. simpl in Hbuf.
    destruct rs; [congruence | simpl in Hbuf; unfold BUFFER_POINTS in Hbuf; lia].
  - exists first, rest. split; [reflexivity|]. split; [exact Hbuf | reflexivity].
Qed.

(** The statistics of a summary are those of the buffer, which holds the
    last [BUFFER_POINTS] forces fed. *)
Lemma session_stats_over_buffer t0 pu rs newId tstop st ap :
  activeProfile st = Some ap -> rs <> [] ->
  exists s,
    summary (runSession t0 pu rs newId tstop st) = Some s /\
    let fs := slice_last BUFFER_POINTS (map snd rs) in
    (avgForce s == sumForces fs / inject_Z (Z.of_nat (length fs)))%Q /\
    isMaxOf (maxForce s) fs.
Proof.
  intros Hap Hne.
  destruct (runSession_summary t0 pu rs newId tstop st ap Hap Hne)
    as (first & rest & _ & Hbuf & Hsum).
  eexists. split; [exact Hsum|].
  assert (Hfs : map s_force (first :: rest) =
                slice_last BUFFER_POINTS (map snd rs)).
  { rewrite Hbuf, slice_last_map, map_map. reflexivity. }
  cbv zeta. rewrite <- Hfs. apply buildSummary_stats.
Qed.

(** With at most [BUFFER_POINTS] samples the statistics are those of all
    the forces fed. *)
Lemma session_stats_exact_within_buffer t0 pu rs newId tstop st ap :
  activeProfile st = Some ap -> rs <> [] ->
  (length rs <= BUFFER_POINTS)%nat ->
  exists s,
    summary (runSession t0 pu rs newId tstop st) = Some s /\
    (avgForce s ==
     sumForces (map snd rs) / inject_Z (Z.of_nat (length rs)))%Q /\
    isMaxOf (maxForce s) (map snd rs).
Proof.
  intros Hap Hne Hlen.
  destruct (session_stats_over_buffer t0 pu rs newId tstop st ap Hap Hne)
    as (s & Hs & Hstats).
  exists s. split; [exact Hs|].
  cbv zeta in Hstats.
  rewrite slice_last_all in Hstats by (rewrite length_map; exact Hlen).
  rewrite length_map in Hstats. exact Hstats.
Qed.

(** *** Sessions longer than the buffer *)

(** C1. A session fed 801 samples, one force of 1000 and then 800 forces
    alternating between 10 and 20: the summary reports the average 15 and
    the maximum 20, which are the statistics of the last 800 samples,
    while the sum of all the forces fed divided by their count is
    13000/801 and their maximum is 1000. *)
Theorem session_of_801_samples_reports_last_800 :
  let fed := map snd Sample.longReadings in
  exists s,
    summary (runSession 0 kg Sample.longReadings "id" 80100
                        (Sample.idle "bryce")) = Some s /\
    length fed = 801%nat /\
    (avgForce s == 15)%Q /\
    (maxForce s == 20)%Q /\
    (sumForces fed / inject_Z (Z.of_nat (length fed)) == 13000 # 801)%Q /\
    isMaxOf 1000%Q fed /\
    ~ (avgForce s == sumForces fed / inject_Z (Z.of_nat (length fed)))%Q /\
    ~ isMaxOf (maxForce s) fed.
Proof.
  cbv zeta.
  eexists. split; [vm_compute; reflexivity|]. cbn [avgForce maxForce].
  split; [vm_compute; reflexivity|].
  split; [vm_compute; reflexivity|].
  split; [vm_compute; reflexivity|].
  split; [vm_compute; reflexivity|].
  split.
  - split; [left; reflexivity|].
    intros f Hf. unfold Sample.longReadings in Hf.
    rewrite map_cons in Hf. apply in_inv in Hf.
    destruct Hf as [<- | Hf]; [apply Qle_refl|].
    apply in_map_iff in Hf. destruct Hf as [r [<- Hr]].
    apply in_map_iff in Hr. destruct Hr as [i [<- _]]. simpl.
    destruct (Nat.even i); unfold Qle; simpl; lia.
  - split.
    + intros H. vm_compute in H. discriminate.
    + intros [_ H]. specialize (H 1000%Q (or_introl eq_refl)).
      revert H. apply Qlt_not_le. reflexivity.
Qed.

(** *** The hold loop on the four-sample scenario *)

Lemma Qle_bool_compat (a b f : Q) :
  (a == b)%Q -> Qle_bool a f = Qle_bool b f.
Proof.
  intros E.
  destruct (Qle_bool a f) eqn:Ha, (Qle_bool b f) eqn:Hb; try reflexivity.
  - apply Qle_bool_iff in Ha. rewrite E in Ha.
    apply Qle_bool_iff in Ha. congruence.
  - apply Qle_bool_iff in Hb. rewrite <- E in Hb.
    apply Qle_bool_iff in Hb. congruence.
Qed.

Lemma holdLoop_target_compat (a b : Q) :
  (a == b)%Q ->
  forall rest prev l c, holdLoop a prev rest l c = holdLoop b prev rest l c.
Proof.
  intros E. induction rest as [|s rest IH]; intros prev l c; simpl.
  - reflexivity.
  - rewrite (Qle_bool_compat a b _ E). destruct (Qle_bool b (s_force s)); apply IH.
Qed.

(** C2, as the code has it.  Fed at 0, 100, 200 and 300 ms after the
    session origin with the forces 10, 20, 12 and 25, and with the
    endurance target 15 of the active profile, the summary produced on
    stop has [longestHoldMs = 100]: each of the two runs at or above the
    target (the sample at 100 ms, the sample at 300 ms) spans the 100 ms
    since the sample before it. *)
Theorem four_sample_scenario_longest_hold
        (t0 : Z) (pu : Units) (newId : string) (tstop : Z)
        (st : AppState) (ap : ProfileData) :
  activeProfile st = Some ap ->
  (targetForce (endurance (profile ap)) == 15)%Q ->
  exists s,
    summary (runSession t0 pu (Sample.fourReadings t0) newId tstop st) = Some s /\
    longestHoldMs s = 100.
Proof.
  intros Hap Htarget.
  assert (Hne : Sample.fourReadings t0 <> []) by discriminate.
  destruct (runSession_summary t0 pu _ newId tstop st ap Hap Hne)
    as (first & rest & _ & Hbuf & Hsum).
  eexists. split; [exact Hsum|].
  unfold Sample.fourReadings, recorded in Hbuf. simpl in Hbuf.
  unfold slice_last in Hbuf. simpl in Hbuf.
  injection Hbuf as -> ->.
  unfold buildSummary. cbn [longestHoldMs].
  rewrite (holdLoop_target_compat _ 15%Q Htarget).
  simpl. lia.
Qed.

Lemma four_sample_scenario_longest_hold_witness :
  exists s,
    summary (runSession 5000 kg (Sample.fourReadings 5000) "id" 5300
                        (Sample.idle "alex")) = Some s /\
    longestHoldMs s = 100.
Proof.
  apply (four_sample_scenario_longest_hold 5000 kg "id" 5300
           (Sample.idle "alex") Sample.alexEntry).
  - reflexivity.
  - reflexivity.
Defined.

(** On that scenario the summary does not report a longest hold of 200. *)
Lemma four_sample_scenario_hold_is_not_200 :
  ~ (exists s,
        summary (runSession 0 kg (Sample.fourReadings 0) "id" 300
                            (Sample.idle "alex")) = Some s /\
        longestHoldMs s = 200).
Proof.
  intros [s [Hs Hhold]].
  vm_compute in Hs. injection Hs as <-. discriminate Hhold.
Qed.

End RecorderFacts.

(* ------------------------------------------------------------------ *)
(** ** Wi-Fi transport adapter *)

Section WifiFacts.

Import Wifi.

Lemma newCalls_app (w w' : State) (l : list Call) :
  calls w' = calls w ++ l -> newCalls w w' = l.
Proof.
  intros E. unfold newCalls. rewrite E, skipn_app, Nat.sub_diag.
  rewrite skipn_all. reflexivity.
Qed.

Lemma newCalls_same (w : State) : newCalls w w = [].
Proof. apply newCalls_app. rewrite app_nil_r. reflexivity. Qed.

(** The calls of [handleSample]: [onStatus("connected")] on the first
    sample only, then [onSample]. *)
Lemma handleSample_calls (s : ForceSample) (w : State) :
  calls (handleSample s w) =
  calls w ++ (if connected w then [] else [OnStatus Connected]) ++ [OnSample s].
Proof.
  unfold handleSample. destruct (connected w); simpl.
  - reflexivity.
  - rewrite <- app_assoc. reflexivity.
Qed.

Lemma onMessage_value_calls (p : Payload) (now : Z) (w : State) :
  phase w = Streaming -> wsClosed w = false ->
  newCalls w (step (WsMessage (JsonValue p) now) w) =
  (if connected w then [] else [OnStatus Connected]) ++ [OnSample (sampleOf p now)].
Proof.
  intros Hp Hc. apply newCalls_app. simpl. rewrite Hp, Hc. simpl.
  apply handleSample_calls.
Qed.

Lemma onPoll_value_calls (p : Payload) (now : Z) (w : State) :
  intervalLive w = true ->
  newCalls w (step (PollTick (Response true (JsonValue p)) now) w) =
  (if onMetaGiven w
   then [OnMeta (mkMeta (p_battery_v p) (p_is_connected p))] else []) ++
  (if connected w then [] else [OnStatus Connected]) ++
  [OnSample (sampleOf p now)].
Proof.
  intros Hl. apply newCalls_app. unfold step. rewrite Hl. unfold onPoll.
  rewrite handleSample_calls.
  destruct (onMetaGiven w); simpl; [|reflexivity].
  rewrite <- app_assoc. reflexivity.
Qed.

Lemma message_emits_one_sample (p : Payload) (now : Z) (w : State) :
  phase w = Streaming -> wsClosed w = false ->
  let added := newCalls w (step (WsMessage (JsonValue p) now) w) in
  filter isOnSample added = [OnSample (sampleOf p now)] /\
  filter isOnError added = [].
Proof.
  intros Hp Hc. cbv zeta. rewrite (onMessage_value_calls p now w Hp Hc).
  destruct (connected w); simpl; split; reflexivity.
Qed.

Lemma poll_emits_one_sample (p : Payload) (now : Z) (w : State) :
  intervalLive w = true ->
  let added := newCalls w (step (PollTick (Response true (JsonValue p)) now) w) in
  filter isOnSample added = [OnSample (sampleOf p now)] /\
  filter isOnError added = [].
Proof.
  intros Hl. cbv zeta. rewrite (onPoll_value_calls p now w Hl).
  destruct (onMetaGiven w), (connected w); simpl; split; reflexivity.
Qed.

(** C6. When the socket fails, or the connect timeout fires, while the
    connect promise is pending, the adapter starts the polling interval
    and stays active; the only call made so far is
    [onStatus("connecting")], so [onError] is not invoked; and the next
    successful poll delivers its sample. *)
Theorem streaming_connect_failure_falls_back_to_polling
        (tid : positive) (hasOnMeta : bool) (e : Event) :
  e = WsError \/ e = ConnectTimeout ->
  let w := step e (connect tid hasOnMeta) in
  phase w = Polling /\
  intervalLive w = true /\
  pollId w = Some (Pos.succ tid) /\
  active w = true /\
  calls w = [OnStatus Connecting] /\
  filter isOnError (calls w) = [] /\
  forall p now,
    filter isOnSample
           (newCalls w (step (PollTick (Response true (JsonValue p)) now) w)) =
    [OnSample (sampleOf p now)].
Proof.
  intros [-> | ->]; cbv zeta;
    (repeat (split; [reflexivity|]));
    intros p now; apply poll_emits_one_sample; reflexivity.
Qed.

Lemma streaming_connect_failure_falls_back_to_polling_witness :
  let w := step ConnectTimeout (connect 1 true) in
  phase w = Polling /\
  intervalLive w = true /\
  pollId w = Some 2%positive /\
  active w = true /\
  calls w = [OnStatus Connecting] /\
  filter isOnError (calls w) = [] /\
  forall p now,
    filter isOnSample
           (newCalls w (step (PollTick (Response true (JsonValue p)) now) w)) =
    [OnSample (sampleOf p now)].
Proof.
  exact (streaming_connect_failure_falls_back_to_polling
           1 true ConnectTimeout (or_intror eq_refl)).
Defined.

(** C7. On an open stream a message that does not parse changes nothing
    (no handler is called), and the well-formed message after it is
    delivered: over the two messages [onSample] is invoked exactly once,
    with that message's sample, and [onError] not at all. *)
Theorem malformed_then_wellformed_message_one_sample
        (w : State) (p : Payload) (now1 now2 : Z) :
  phase w = Streaming -> wsClosed w = false ->
  let w1 := step (WsMessage JsonThrows now1) w in
  let w2 := run [WsMessage JsonThrows now1; WsMessage (JsonValue p) now2] w in
  w1 = w /\
  filter isOnSample (newCalls w w2) = [OnSample (sampleOf p now2)] /\
  filter isOnError (newCalls w w2) = [].
Proof.
  intros Hp Hc. cbv zeta.
  assert (H1 : step (WsMessage JsonThrows now1) w = w).
  { simpl. rewrite Hp, Hc. reflexivity. }
  split; [exact H1|].
  unfold run. cbn [fold_left]. rewrite H1.
  apply message_emits_one_sample; assumption.
Qed.

Lemma malformed_then_wellformed_message_one_sample_witness :
  let w := step WsOpen (connect 1 true) in
  let p := mkPayload (Some 32.5%Q) (Some N) (Some 1730000000000) None None in
  let w2 := run [WsMessage JsonThrows 5; WsMessage (JsonValue p) 9] w in
  step (WsMessage JsonThrows 5) w = w /\
  filter isOnSample (newCalls w w2) =
    [OnSample (mkForceSample 32.5%Q N 1730000000000)] /\
  filter isOnError (newCalls w w2) = [].
Proof.
  intros w p w2.
  exact (malformed_then_wellformed_message_one_sample w p 5 9 eq_refl eq_refl).
Defined.

Lemma sampleOf_defaults (p : Payload) (now : Z) :
  let s := sampleOf p now in
  (p_force p = None -> force s = 0%Q) /\
  (p_units p = None -> units s = kg) /\
  (p_timestamp_ms p = None -> timestamp_ms s = now) /\
  (forall f, p_force p = Some f -> force s = f) /\
  (forall u, p_units p = Some u -> units s = u) /\
  (forall t, p_timestamp_ms p = Some t -> timestamp_ms s = t).
Proof.
  unfold sampleOf. simpl.
  repeat split; intros; match goal with H : _ = _ |- _ => rewrite H end;
    reflexivity.
Qed.

(** C10. A payload that parses to a value other than [null] is never
    dropped, on either path: exactly one sample is emitted, in which a
    missing [force] is 0, missing [units] are kg and a missing
    [timestamp_ms] is the current time, and a field that is present is
    passed on.  On the socket path a message makes no call at all exactly
    when parsing throws or the value is [null]; on the polling path a
    response whose body parses to such a value always makes a call. *)
Theorem payload_missing_fields_emitted_with_defaults
        (w : State) (p : Payload) (now : Z) :
  let emitted (w' : State) :=
    exists s,
      filter isOnSample (newCalls w w') = [OnSample s] /\
      (p_force p = None -> force s = 0%Q) /\
      (p_units p = None -> units s = kg) /\
      (p_timestamp_ms p = None -> timestamp_ms s = now) /\
      (forall f, p_force p = Some f -> force s = f) /\
      (forall u, p_units p = Some u -> units s = u) /\
      (forall t, p_timestamp_ms p = Some t -> timestamp_ms s = t) in
  (phase w = Streaming -> wsClosed w = false ->
   emitted (step (WsMessage (JsonValue p) now) w) /\
   forall data,
     newCalls w (step (WsMessage data now) w) = [] <->
     data = JsonThrows \/ data = JsonNull) /\
  (intervalLive w = true ->
   emitted (step (PollTick (Response true (JsonValue p)) now) w) /\
   forall body,
     newCalls w (step (PollTick (Response true body) now) w) = [] ->
     body = JsonThrows \/ body = JsonNull).
Proof.
  cbv zeta. split.
  - intros Hp Hc. split.
    + exists (sampleOf p now). split.
      * apply message_emits_one_sample; assumption.
      * apply sampleOf_defaults.
    + intros data. split.
      * intros Hnone. destruct data as [| |q]; auto.
        rewrite (onMessage_value_calls q now w Hp Hc) in Hnone.
        destruct (connected w); discriminate Hnone.
      * intros [-> | ->]; simpl; rewrite Hp, Hc; apply newCalls_same.
  - intros Hl. split.
    + exists (sampleOf p now). split.
      * apply poll_emits_one_sample; assumption.
      * apply sampleOf_defaults.
    + intros body Hnone. destruct body as [| |q]; auto.
      rewrite (onPoll_value_calls q now w Hl) in Hnone.
      destruct (onMetaGiven w), (connected w); discriminate Hnone.
Qed.

Lemma payload_missing_fields_emitted_with_defaults_witness :
  let none := mkPayload None None None None None in
  let streaming := step WsOpen (connect 1 true) in
  let polling := step WsError (connect 1 true) in
  (exists s,
      filter isOnSample
        (newCalls streaming (step (WsMessage (JsonValue none) 77) streaming)) =
        [OnSample s] /\
      force s = 0%Q /\ units s = kg /\ timestamp_ms s = 77) /\
  (exists s,
      filter isOnSample
        (newCalls polling
           (step (PollTick (Response true (JsonValue none)) 77) polling)) =
        [OnSample s] /\
      force s = 0%Q /\ units s = kg /\ timestamp_ms s = 77).
Proof.
  intros none streaming polling. split.
  - destruct (proj1 (payload_missing_fields_emitted_with_defaults
                       streaming none 77) eq_refl eq_refl)
      as [[s (Hs & Hf & Hu & Ht & _)] _].
    exists s. split; [exact Hs|].
    split; [apply Hf; reflexivity|].
    split; [apply Hu; reflexivity | apply Ht; reflexivity].
  - destruct (proj2 (payload_missing_fields_emitted_with_defaults
                       polling none 77) eq_refl)
      as [[s (Hs & Hf & Hu & Ht & _)] _].
    exists s. split; [exact Hs|].
    split; [apply Hf; reflexivity|].
    split; [apply Hu; reflexivity | apply Ht; reflexivity].
Defined.

End WifiFacts.

(* ------------------------------------------------------------------ *)
(** ** Connection orchestrator *)

Section OrchestratorFacts.

Import Wifi Orchestrator.

Lemma set_nth_lookup (l : list bool) : forall i b j,
  nth_error (set_nth i b l) j =
  if Nat.eqb j i then option_map (fun _ => b) (nth_error l j)
  else nth_error l j.
Proof.
  induction l as [|x l IH]; intros i b j.
  - destruct j as [|j]; cbn [set_nth nth_error option_map];
      match goal with |- context [Nat.eqb ?a ?c] => destruct (Nat.eqb a c) end;
      reflexivity.
  - destruct i as [|i], j as [|j]; simpl; try reflexivity. apply IH.
Qed.

Lemma no_active_filter (l : list bool) :
  (forall j, nth_error l j <> Some true) -> filter (fun b => b) l = [].
Proof.
  induction l as [|x l IH]; intros H; simpl; [reflexivity|].
  destruct x.
  - exfalso. apply (H 0%nat). reflexivity.
  - apply IH. intros j. apply (H (S j)).
Qed.

Lemma initial_settled : settled initial.
Proof. intros i. simpl. destruct i; discriminate. Qed.

Lemma disconnect_stops_all (h : Hook) :
  settled h ->
  cleanupRef (disconnect h) = None /\
  forall j, nth_error (transports (disconnect h)) j <> Some true.
Proof.
  intros Hs. unfold disconnect. split; [reflexivity|].
  intros j. destruct (cleanupRef h) as [i|] eqn:E; simpl.
  - rewrite set_nth_lookup. destruct (Nat.eqb_spec j i) as [-> | NE].
    + destruct (nth_error (transports h) i); discriminate.
    + intros Hj. apply Hs in Hj. congruence.
  - intros Hj. apply Hs in Hj. congruence.
Qed.

Lemma disconnect_settled (h : Hook) :
  settled h -> settled (disconnect h) /\ activeCount (disconnect h) = 0%nat.
Proof.
  intros Hs. destruct (disconnect_stops_all h Hs) as [_ Hnone]. split.
  - intros i Hi. exfalso. exact (Hnone i Hi).
  - unfold activeCount. rewrite (no_active_filter _ Hnone). reflexivity.
Qed.

(** A [connect()] that completes in a settled state tears the stored
    transport down and leaves exactly the new one active. *)
Lemma connect_settled (h : Hook) :
  settled h ->
  settled (connect Fulfilled h) /\ activeCount (connect Fulfilled h) = 1%nat.
Proof.
  intros Hs. destruct (disconnect_stops_all h Hs) as [_ Hnone].
  unfold connect, connectStart, connectSettle. cbn [transports cleanupRef].
  split.
  - intros i Hi. cbn [transports cleanupRef] in *.
    destruct (Nat.lt_ge_cases i (length (transports (disconnect h)))) as [Hlt | Hge].
    + rewrite nth_error_app1 in Hi by exact Hlt. exfalso. exact (Hnone i Hi).
    + rewrite nth_error_app2 in Hi by exact Hge.
      destruct (i - length (transports (disconnect h)))%nat as [|k] eqn:Ek.
      * f_equal. lia.
      * simpl in Hi. destruct k; discriminate.
  - unfold activeCount. cbn [transports].
    rewrite filter_app, (no_active_filter _ Hnone). reflexivity.
Qed.

(** Two [connect()] calls, the second started after the first has
    completed, leave exactly one transport active. *)
Lemma sequential_connects_one_active (h : Hook) :
  settled h ->
  activeCount (run [Connect Fulfilled; Connect Fulfilled] h) = 1%nat.
Proof.
  intros Hs. unfold run. cbn [fold_left step].
  apply connect_settled. apply connect_settled. exact Hs.
Qed.

(** C5. Two [connect()] calls without a [disconnect()], the second
    started while the first still awaits its adapter: the second finds no
    stored cleanup, both transports start, and once both promises have
    fulfilled two transports are active; the stored cleanup is the second
    one's, so a later [disconnect()] still leaves the first running. *)
Theorem overlapping_connects_leave_two_transports_active :
  let h := run [ConnectStart; ConnectStart;
                ConnectSettle 0 Fulfilled; ConnectSettle 1 Fulfilled] initial in
  transports h = [true; true] /\
  activeCount h = 2%nat /\
  cleanupRef h = Some 1%nat /\
  activeCount (disconnect h) = 1%nat /\
  activeCount (run [Connect Fulfilled; Connect Fulfilled] initial) = 1%nat.
Proof. cbv zeta. repeat split. Qed.

End OrchestratorFacts.

(* ------------------------------------------------------------------ *)
(** ** Profile store: configuration updates and invariants *)

Section StoreInvariants.

Import Storage Collection.

Lemma names_addSession ps n S : names (addSession ps n S) = names ps.
Proof.
  unfold names, addSession. rewrite map_map. apply map_ext.
  intros e. destruct (named n e); reflexivity.
Qed.

Lemma names_updateProfile ps u : names (updateProfile ps u) = names ps.
Proof.
  unfold names, updateProfile. rewrite map_map. apply map_ext.
  intros e. destruct (named (name u) e) eqn:E; [|reflexivity].
  simpl. symmetry. apply named_true. exact E.
Qed.

Lemma some_named_iff n ps : existsb (named n) ps = true <-> In n (names ps).
Proof.
  unfold names. rewrite existsb_exists, in_map_iff. split.
  - intros [e [Hin He]]. exists e. split; [apply named_true; exact He | exact Hin].
  - intros [e [He Hin]]. exists e. split; [exact Hin | apply named_true; exact He].
Qed.

(** X1. [updateProfile] keeps the length and order of the collection; an
    entry with the updated profile's name gets the new configuration and
    keeps its sessions; every other entry is the same; without such an
    entry the collection is returned as it is. *)
Theorem updateProfile_replaces_config
        (collection : list ProfileData) (updated : ProfileConfig) :
  length (updateProfile collection updated) = length collection /\
  (forall i e, nth_error collection i = Some e ->
               name (profile e) = name updated ->
               nth_error (updateProfile collection updated) i =
               Some (mkProfileData updated (sessions e))) /\
  (forall i e, nth_error collection i = Some e ->
               name (profile e) <> name updated ->
               nth_error (updateProfile collection updated) i = Some e) /\
  ((forall e, In e collection -> name (profile e) <> name updated) ->
   updateProfile collection updated = collection).
Proof.
  unfold updateProfile. split; [apply length_map|]. split; [|split].
  - intros i e Hi Hn. rewrite nth_error_map, Hi. simpl.
    rewrite (proj2 (named_true _ e) Hn). reflexivity.
  - intros i e Hi Hn. rewrite nth_error_map, Hi. simpl.
    rewrite (proj2 (named_false _ e) Hn). reflexivity.
  - intros H. induction collection as [|e ps IH]; simpl; [reflexivity|].
    rewrite (proj2 (named_false _ e)) by (apply H; left; reflexivity).
    f_equal. apply IH. intros e' He'. apply H. right. exact He'.
Qed.

Lemma updateProfile_replaces_config_witness :
  nth_error (updateProfile [Sample.bryceEntry; Sample.alexEntry]
               (mkProfileConfig "bryce" (mkEndurance 40%Q) (mkPyramid []) lbf None []))
            0 =
    Some (mkProfileData
            (mkProfileConfig "bryce" (mkEndurance 40%Q) (mkPyramid []) lbf None [])
            [Sample.s1; Sample.s2]) /\
  nth_error (updateProfile [Sample.bryceEntry; Sample.alexEntry]
               (mkProfileConfig "bryce" (mkEndurance 40%Q) (mkPyramid []) lbf None []))
            1 = Some Sample.alexEntry /\
  updateProfile [Sample.bryceEntry] Sample.alex = [Sample.bryceEntry].
Proof.
  pose proof (updateProfile_replaces_config [Sample.bryceEntry; Sample.alexEntry]
                (mkProfileConfig "bryce" (mkEndurance 40%Q) (mkPyramid []) lbf None []))
    as [_ [Hhit [Hmiss _]]].
  pose proof (updateProfile_replaces_config [Sample.bryceEntry] Sample.alex)
    as [_ [_ [_ Hnone]]].
  split; [|split].
  - apply (Hhit 0%nat Sample.bryceEntry); reflexivity.
  - apply (Hmiss 1%nat Sample.alexEntry); [reflexivity | simpl; discriminate].
  - apply Hnone. intros e [<- | []]. simpl. discriminate.
Defined.

(** X2. Unique profile names stay unique under every operation of the
    store: [addSession] and [updateProfile] leave the sequence of names as
    it is, and [addProfile] adds a name only when it is new. *)
Theorem store_operations_keep_names_unique
        (collection : list ProfileData) (config : ProfileConfig)
        (profileName : string) (summary : SessionSummary) :
  NoDup (names collection) ->
  NoDup (names (addProfile collection config)) /\
  NoDup (names (addSession collection profileName summary)) /\
  NoDup (names (updateProfile collection config)) /\
  names (addSession collection profileName summary) = names collection /\
  names (updateProfile collection config) = names collection.
Proof.
  intros Hnd. rewrite names_addSession, names_updateProfile.
  split; [|repeat split; assumption].
  unfold addProfile.
  destruct (existsb (named (name config)) collection) eqn:E; [exact Hnd|].
  unfold names. rewrite map_app. apply NoDup_app.
  - exact Hnd.
  - simpl. constructor; [intros []|constructor].
  - intros a Ha [<- | []]. cbn [profile name] in Ha.
    apply (proj2 (some_named_iff (name config) collection)) in Ha. congruence.
Qed.

Lemma store_operations_keep_names_unique_witness :
  NoDup (names (addProfile [Sample.bryceEntry; Sample.alexEntry] Sample.alex)) /\
  NoDup (names (addSession [Sample.bryceEntry; Sample.alexEntry] "alex" Sample.newest)) /\
  NoDup (names (updateProfile [Sample.bryceEntry; Sample.alexEntry] Sample.alex)) /\
  names (addSession [Sample.bryceEntry; Sample.alexEntry] "alex" Sample.newest) =
    ["bryce"%string; "alex"%string] /\
  names (updateProfile [Sample.bryceEntry; Sample.alexEntry] Sample.alex) =
    ["bryce"%string; "alex"%string].
Proof.
  apply (store_operations_keep_names_unique
           [Sample.bryceEntry; Sample.alexEntry] Sample.alex "alex" Sample.newest).
  simpl. constructor.
  - intros [H | []]. discriminate H.
  - constructor; [intros [] | constructor].
Defined.

(** X3. After [addProfile] an entry with the profile's name exists, and
    adding the same profile again changes nothing. *)
Theorem addProfile_idempotent
        (collection : list ProfileData) (config : ProfileConfig) :
  In (name config) (names (addProfile collection config)) /\
  addProfile (addProfile collection config) config = addProfile collection config.
Proof.
  assert (H : existsb (named (name config)) (addProfile collection config) = true).
  { unfold addProfile.
    destruct (existsb (named (name config)) collection) eqn:E; [exact E|].
    rewrite existsb_app. simpl. unfold named at 2. simpl.
    rewrite String.eqb_refl. apply orb_true_iff. right. reflexivity. }
  split.
  - apply some_named_iff. exact H.
  - unfold addProfile at 1. rewrite H. reflexivity.
Qed.

Lemma sessionTotal_addSession_absent ps n S :
  ~ In n (names ps) -> sessionTotal (addSession ps n S) = sessionTotal ps.
Proof.
  induction ps as [|e ps IH]; intros Hn; simpl; [reflexivity|].
  simpl in Hn. rewrite IH by tauto.
  rewrite (proj2 (named_false n e)) by tauto. reflexivity.
Qed.

(** X4. With unique names, [addSession] under the name of an existing
    profile stores the summary exactly once: the number of summaries in
    the collection grows by one. *)
Theorem addSession_stores_summary_once
        (collection : list ProfileData) (profileName : string)
        (summary : SessionSummary) :
  NoDup (names collection) ->
  In profileName (names collection) ->
  sessionTotal (addSession collection profileName summary) =
  S (sessionTotal collection).
Proof.
  induction collection as [|e ps IH]; intros Hnd Hin; [destruct Hin|].
  simpl in Hnd. apply NoDup_cons_iff in Hnd. destruct Hnd as [Hnotin Hnd].
  simpl. destruct (named profileName e) eqn:E.
  - apply named_true in E. rewrite E in Hnotin.
    rewrite (sessionTotal_addSession_absent ps profileName summary Hnotin).
    reflexivity.
  - apply named_false in E. destruct Hin as [Hin | Hin]; [contradiction|].
    change (map (fun entry => if named profileName entry
                              then mkProfileData (profile entry) (summary :: sessions entry)
                              else entry) ps)
      with (addSession ps profileName summary).
    rewrite (IH Hnd Hin). lia.
Qed.

Lemma addSession_stores_summary_once_witness :
  sessionTotal (addSession [Sample.bryceEntry; Sample.alexEntry] "alex" Sample.newest) =
  3%nat.
Proof.
  apply (addSession_stores_summary_once
           [Sample.bryceEntry; Sample.alexEntry] "alex" Sample.newest).
  - simpl. constructor.
    + intros [H | []]. discriminate H.
    + constructor; [intros [] | constructor].
  - simpl. right. left. reflexivity.
Defined.

End StoreInvariants.
(* ------------------------------------------------------------------ *)
(** ** Persistence *)

Section PersistenceFacts.

Import LocalStore.

Variable JSON_parse : string -> Parsed.
Variable JSON_stringify : list ProfileData -> string.

Lemma getItem_setItem_same k v ls : getItem (setItem k v ls) k = Some v.
Proof. unfold getItem, setItem. rewrite String.eqb_refl. reflexivity. Qed.

Lemma getItem_setItem_other k k' v ls :
  k' <> k -> getItem (setItem k v ls) k' = getItem ls k'.
Proof.
  intros H. unfold getItem, setItem.
  rewrite (proj2 (String.eqb_neq k' k) H). reflexivity.
Qed.

(** X5. [loadProfiles] never returns an empty collection.  Without a
    stored value (or with an empty one) it returns the single default
    profile and writes both keys; when the stored text does not parse, or
    parses to something that is not a non-empty array, it returns the
    default profile and leaves the storage as it is. *)
Theorem loadProfiles_never_empty (ls : LocalStorage) :
  let r := loadProfiles JSON_parse JSON_stringify ls in
  fst r <> [] /\
  (falsy (getItem ls STORAGE_KEY) = true ->
   fst r = seed /\
   getItem (snd r) STORAGE_KEY = Some (JSON_stringify seed) /\
   getItem (snd r) ACTIVE_KEY = Some (name Storage.defaultProfile)) /\
  (forall raw,
      getItem ls STORAGE_KEY = Some raw -> raw <> ""%string ->
      JSON_parse raw = ParseThrows \/ JSON_parse raw = NotAnArray \/
      JSON_parse raw = ParsedArray [] ->
      r = (seed, ls)).
Proof.
  cbv zeta. unfold loadProfiles. split; [|split].
  - destruct (getItem ls STORAGE_KEY) as [raw|]; [|discriminate].
    destruct (String.eqb raw ""); [discriminate|].
    destruct (JSON_parse raw) as [| |[|e ps]]; discriminate.
  - intros Hf.
    assert (E : forall ls' : LocalStorage,
               getItem (setItem ACTIVE_KEY (name Storage.defaultProfile)
                          (setItem STORAGE_KEY (JSON_stringify seed) ls')) STORAGE_KEY
               = Some (JSON_stringify seed)).
    { intros ls'. rewrite getItem_setItem_other by discriminate.
      apply getItem_setItem_same. }
    destruct (getItem ls STORAGE_KEY) as [raw|]; simpl in Hf.
    + rewrite Hf. simpl fst. simpl snd.
      split; [reflexivity|]. split; [apply E | apply getItem_setItem_same].
    + simpl fst. simpl snd.
      split; [reflexivity|]. split; [apply E | apply getItem_setItem_same].
  - intros raw Hraw Hne Hparse. rewrite Hraw.
    rewrite (proj2 (String.eqb_neq raw "") Hne).
    destruct Hparse as [-> | [-> | ->]]; reflexivity.
Qed.

(** X6. What [saveProfiles] wrote, [loadProfiles] reads back, for a
    non-empty collection that [JSON.parse] recovers from its
    [JSON.stringify] text; the storage is not written again.  An empty
    collection that was saved loads as the default profile. *)
Theorem saveProfiles_loadProfiles_roundtrip
        (collection : list ProfileData) (ls : LocalStorage) :
  JSON_parse (JSON_stringify collection) = ParsedArray collection ->
  JSON_stringify collection <> ""%string ->
  let saved := saveProfiles JSON_stringify collection ls in
  (collection <> [] ->
   loadProfiles JSON_parse JSON_stringify saved = (collection, saved)) /\
  (collection = [] ->
   loadProfiles JSON_parse JSON_stringify saved = (seed, saved)).
Proof.
  intros Hparse Hne. cbv zeta.
  unfold loadProfiles, saveProfiles. rewrite getItem_setItem_same.
  rewrite (proj2 (String.eqb_neq _ "") Hne), Hparse.
  split; intros H.
  - destruct collection; [contradiction | reflexivity].
  - rewrite H. reflexivity.
Qed.

End PersistenceFacts.

Section PersistenceWitnesses.

Import LocalStore.

Lemma loadProfiles_never_empty_witness :
  let fresh := loadProfiles (parseStub []) stringifyStub emptyStorage in
  let broken := setItem STORAGE_KEY "{}" emptyStorage in
  fst fresh = seed /\
  getItem (snd fresh) ACTIVE_KEY = Some "bryce"%string /\
  loadProfiles (parseStub []) stringifyStub broken = (seed, broken).
Proof.
  intros fresh broken.
  destruct (loadProfiles_never_empty (parseStub []) stringifyStub emptyStorage)
    as [_ [Hfresh _]].
  destruct (Hfresh eq_refl) as [H1 [_ H3]].
  destruct (loadProfiles_never_empty (parseStub []) stringifyStub broken)
    as [_ [_ Hbroken]].
  split; [exact H1|]. split; [exact H3|].
  apply (Hbroken "{}"%string); [reflexivity | discriminate | right; left; reflexivity].
Defined.

Lemma saveProfiles_loadProfiles_roundtrip_witness :
  let doc := [Sample.bryceEntry; Sample.alexEntry] in
  let saved := saveProfiles stringifyStub doc emptyStorage in
  loadProfiles (parseStub doc) stringifyStub saved = (doc, saved).
Proof.
  intros doc saved.
  apply (proj1 (saveProfiles_loadProfiles_roundtrip
                  (parseStub doc) stringifyStub doc emptyStorage
                  eq_refl ltac:(discriminate))).
  discriminate.
Defined.

End PersistenceWitnesses.

Section ActiveNameFacts.

Import LocalStore.

(** X7. The active profile name that was saved is the one loaded, except
    the empty name, which loads as the default name; the default name is
    also what loads from a storage without the key.  Saving the collection
    does not touch the stored name. *)
Theorem active_profile_name_roundtrip
        (n : string) (ls : LocalStorage)
        (stringify : list ProfileData -> string) (ps : list ProfileData) :
  loadActiveProfileName (saveActiveProfileName n ls) =
    (if String.eqb n "" then name Storage.defaultProfile else n) /\
  (getItem ls ACTIVE_KEY = None ->
   loadActiveProfileName ls = name Storage.defaultProfile) /\
  loadActiveProfileName (saveProfiles stringify ps ls) = loadActiveProfileName ls.
Proof.
  unfold loadActiveProfileName, saveActiveProfileName, saveProfiles.
  split; [|split].
  - rewrite getItem_setItem_same. reflexivity.
  - intros H. rewrite H. reflexivity.
  - rewrite getItem_setItem_other by discriminate. reflexivity.
Qed.

Lemma active_profile_name_roundtrip_witness :
  loadActiveProfileName (saveActiveProfileName "alex" emptyStorage) = "alex"%string /\
  loadActiveProfileName emptyStorage = "bryce"%string.
Proof.
  destruct (active_profile_name_roundtrip "alex" emptyStorage stringifyStub [])
    as [H1 [H2 _]].
  split; [exact H1 | exact (H2 eq_refl)].
Defined.

End ActiveNameFacts.

(* ------------------------------------------------------------------ *)
(** ** Dashboard helpers *)

Section DashboardFacts.

Import Recorder Dashboard.
Local Open Scope Q_scope.

(** X8. [clamp] returns a value between its bounds when they are in
    order, and the value itself when it already lies between them; the
    gauge's fill fraction is therefore between 0 and 1 for a positive
    full-scale value. *)
Theorem clamp_and_gauge_bounds (value lo hi : Q) :
  lo <= hi ->
  (lo <= clamp value lo hi /\ clamp value lo hi <= hi) /\
  (lo <= value -> value <= hi -> clamp value lo hi == value) /\
  (lo == 0 -> 0 < hi ->
   0 <= gaugePercentage value hi /\ gaugePercentage value hi <= 1).
Proof.
  intros Hle. unfold clamp.
  assert (Hlow : lo <= Qmin (Qmax value lo) hi).
  { apply Q.min_glb_iff. split; [apply Q.le_max_r | exact Hle]. }
  assert (Hhigh : Qmin (Qmax value lo) hi <= hi) by apply Q.le_min_r.
  split; [split; assumption|]. split.
  - intros H1 H2. rewrite (Q.max_l value lo H1). apply Q.min_l. exact H2.
  - intros Hz Hpos. unfold gaugePercentage, clamp.
    assert (H0 : 0 <= Qmin (Qmax value 0) hi).
    { apply Q.min_glb_iff. split; [apply Q.le_max_r | apply Qlt_le_weak; exact Hpos]. }
    split.
    + apply Qle_shift_div_l; [exact Hpos|]. rewrite Qmult_0_l. exact H0.
    + apply Qle_shift_div_r; [exact Hpos|]. rewrite Qmult_1_l. apply Q.le_min_r.
Qed.

Lemma clamp_and_gauge_bounds_witness :
  (0 <= clamp 150 0 100 /\ clamp 150 0 100 <= 100) /\
  (0 <= gaugePercentage 150 100 /\ gaugePercentage 150 100 <= 1).
Proof.
  destruct (clamp_and_gauge_bounds 150 0 100 ltac:(discriminate)) as [H1 [_ H3]].
  split; [exact H1|]. apply H3; reflexivity.
Defined.

Lemma fold_Qmax_compat (l : list Q) : forall a b,
  a == b -> fold_left Qmax l a == fold_left Qmax l b.
Proof.
  induction l as [|x l IH]; intros a b E; simpl; [exact E|].
  apply IH. rewrite E. reflexivity.
Qed.

Lemma fold_Qmax_acc (l : list Q) : forall a b,
  fold_left Qmax l (Qmax a b) == Qmax a (fold_left Qmax l b).
Proof.
  induction l as [|x l IH]; intros a b; simpl; [reflexivity|].
  rewrite <- IH. apply fold_Qmax_compat. symmetry. apply Q.max_assoc.
Qed.

Lemma fold_Zmax_acc (l : list Z) : forall a b : Z,
  fold_left Z.max l (Z.max a b) = Z.max a (fold_left Z.max l b).
Proof.
  induction l as [|x l IH]; intros a b; simpl; [reflexivity|].
  rewrite <- IH, Z.max_assoc. reflexivity.
Qed.

Lemma fold_avg_shift (l : list SessionSummary) : forall a,
  fold_left (fun sum session => sum + avgForce session) l a ==
  a + fold_left (fun sum session => sum + avgForce session) l 0.
Proof.
  induction l as [|s l IH]; intros a; simpl; [ring|].
  rewrite (IH (a + avgForce s)), (IH (0 + avgForce s)). ring.
Qed.

(** X9. The profile statistics of an empty history are all zero (the
    mean divides by 1, not by the count 0).  A new summary in front of a
    history makes the count one more, the maximum grip and the longest
    hold the larger of the summary's and the old value, and the mean the
    old mean re-weighted with the summary's average. *)
Theorem stats_of_history (S : SessionSummary) (history : list SessionSummary) :
  let old := stats history in
  let new := stats (S :: history) in
  let n := inject_Z (Z.of_nat (length history)) in
  (maxGrip (stats []) == 0 /\ meanForce (stats []) == 0 /\
   longestHold (stats []) = 0%Z /\ sessionCount (stats []) = 0%nat) /\
  sessionCount new = Datatypes.S (sessionCount old) /\
  maxGrip new == Qmax (maxForce S) (maxGrip old) /\
  longestHold new = Z.max (longestHoldMs S) (longestHold old) /\
  meanForce new == (meanForce old * n + avgForce S) / (n + 1).
Proof.
  cbv zeta. split; [repeat split; reflexivity|].
  split; [reflexivity|]. split; [|split].
  - unfold stats, maxGrip, Math_max_of, Math_max.
    destruct history as [|s' ss]; simpl; [reflexivity|].
    apply fold_Qmax_acc.
  - unfold stats, longestHold, Math_max_ms.
    destruct history as [|s' ss]; simpl; [reflexivity|].
    apply fold_Zmax_acc.
  - unfold stats, meanForce.
    cbn [fold_left length Nat.eqb].
    rewrite fold_avg_shift.
    rewrite Nat2Z.inj_succ, <- Z.add_1_r, inject_Z_plus.
    change (inject_Z 1) with 1.
    destruct history as [|s' ss].
    + simpl. field.
    + cbn [length Nat.eqb].
      set (k := inject_Z (Z.of_nat (Datatypes.S (length ss)))).
      set (total := fold_left (fun sum session => sum + avgForce session) (s' :: ss) 0).
      assert (Hk : 0 < k).
      { unfold k. rewrite <- (Zlt_Qlt 0). lia. }
      field. split.
      * intros E. rewrite E in Hk. revert Hk. apply Qlt_irrefl.
      * intros E. assert (H1 : 0 < k + 1).
        { apply Qlt_trans with k; [exact Hk|].
          rewrite <- (Qplus_0_r k) at 1. apply Qplus_lt_r. reflexivity. }
        rewrite E in H1. revert H1. apply Qlt_irrefl.
Qed.

End DashboardFacts.
(* ------------------------------------------------------------------ *)
(** ** The active profile and the handlers that edit the collection *)

Section ActiveProfileFacts.

Import Storage Collection Recorder Dashboard.

Lemma find_named_map (f : ProfileData -> ProfileData) (n : string) ps :
  (forall e, name (profile (f e)) = name (profile e)) ->
  find (named n) (map f ps) = option_map f (find (named n) ps).
Proof.
  intros Hf. induction ps as [|e ps IH]; simpl; [reflexivity|].
  unfold named at 1 3. rewrite Hf.
  destruct (String.eqb (name (profile e)) n); [reflexivity | exact IH].
Qed.

(** The active profile of a collection mapped by a function that keeps
    the names is the image of the active profile. *)
Lemma activeProfile_map (f : ProfileData -> ProfileData) (st st' : AppState) :
  (forall e, name (profile (f e)) = name (profile e)) ->
  profiles st' = map f (profiles st) ->
  activeProfileName st' = activeProfileName st ->
  activeProfile st' = option_map f (activeProfile st).
Proof.
  intros Hf Hp Hn. unfold activeProfile. rewrite Hp, Hn, (find_named_map f _ _ Hf).
  destruct (find (named (activeProfileName st)) (profiles st)); [reflexivity|].
  destruct (profiles st); reflexivity.
Qed.

Lemma find_app_named (n : string) (ps qs : list ProfileData) :
  find (named n) (ps ++ qs) =
  match find (named n) ps with Some e => Some e | None => find (named n) qs end.
Proof.
  induction ps as [|e ps IH]; simpl; [reflexivity|].
  destruct (named n e); [reflexivity | exact IH].
Qed.

Lemma find_named_none (n : string) (ps : list ProfileData) :
  (forall e, In e ps -> name (profile e) <> n) -> find (named n) ps = None.
Proof.
  induction ps as [|e ps IH]; intros H; simpl; [reflexivity|].
  rewrite (proj2 (named_false n e)) by (apply H; left; reflexivity).
  apply IH. intros e' He'. apply H. right. exact He'.
Qed.

Lemma find_named_some (n : string) (ps : list ProfileData) :
  In n (names ps) ->
  exists e, find (named n) ps = Some e /\ In e ps /\ name (profile e) = n.
Proof.
  induction ps as [|e ps IH]; intros Hin; [destruct Hin|].
  simpl. destruct (named n e) eqn:E.
  - exists e. split; [reflexivity|]. split; [left; reflexivity|].
    apply named_true. exact E.
  - destruct Hin as [Hin | Hin].
    + apply named_false in E. simpl in Hin. contradiction.
    + destruct (IH Hin) as [e' [H1 [H2 H3]]].
      exists e'. split; [exact H1|]. split; [right; exact H2 | exact H3].
Qed.

(** X10. With a non-empty collection the active profile always resolves
    to one of its entries: the first entry that carries the active name,
    or the first entry of the collection when no entry carries it. *)
Theorem activeProfile_resolves (st : AppState) :
  profiles st <> [] ->
  exists ap,
    activeProfile st = Some ap /\ In ap (profiles st) /\
    (In (activeProfileName st) (names (profiles st)) ->
     name (profile ap) = activeProfileName st) /\
    (~ In (activeProfileName st) (names (profiles st)) ->
     hd_error (profiles st) = Some ap).
Proof.
  intros Hne. unfold activeProfile.
  destruct (find (named (activeProfileName st)) (profiles st)) as [e|] eqn:E.
  - destruct (find_some _ _ E) as [Hin Hnamed]. apply named_true in Hnamed.
    exists e. split; [reflexivity|]. split; [exact Hin|]. split.
    + intros _. exact Hnamed.
    + intros Habs. exfalso. apply Habs. unfold names.
      apply in_map_iff. exists e. split; assumption.
  - destruct (profiles st) as [|e ps] eqn:Eps; [contradiction|].
    exists e. split; [reflexivity|]. split; [left; reflexivity|]. split.
    + intros Hin. destruct (find_named_some _ _ Hin) as [e' [H1 _]]. congruence.
    + intros _. reflexivity.
Qed.

Lemma activeProfile_resolves_witness :
  exists ap,
    activeProfile (Sample.idle "nobody") = Some ap /\
    hd_error (profiles (Sample.idle "nobody")) = Some ap.
Proof.
  destruct (activeProfile_resolves (Sample.idle "nobody") ltac:(discriminate))
    as [ap [H1 [_ [_ H4]]]].
  exists ap. split; [exact H1|]. apply H4.
  simpl. intros [H | [H | []]]; discriminate H.
Defined.

Lemma addProfile_has_name (ps : list ProfileData) (p : ProfileConfig) :
  In (name p) (names (addProfile ps p)).
Proof.
  unfold addProfile. destruct (existsb (named (name p)) ps) eqn:E.
  - apply some_named_iff. exact E.
  - unfold names. rewrite map_app. apply in_app_iff. right. left. reflexivity.
Qed.

(** X11. [handleAddProfile] with a non-empty trimmed name makes that name
    the active one, changes nothing else outside the collection, and the
    active profile resolves to an entry of that name.  When the name is
    already taken the collection is not changed and the entry selected is
    one of its entries (the existing profile with its sessions);
    otherwise the new entry is appended and selected: it has no sessions
    and its configuration is the previously active one (endurance,
    pyramid, preferred units, password and friends) under the new name.
    With an empty trimmed name nothing changes. *)
Theorem handleAddProfile_selects_profile (trimmed : string) (st : AppState) :
  profiles st <> [] ->
  trimmed <> ""%string ->
  exists ap st' e,
    activeProfile st = Some ap /\
    handleAddProfile trimmed st = Some st' /\
    st' = set_activeProfileName trimmed (set_profiles (profiles st') st) /\
    activeProfileName st' = trimmed /\
    activeProfile st' = Some e /\ name (profile e) = trimmed /\
    (In trimmed (names (profiles st)) ->
     profiles st' = profiles st /\ In e (profiles st)) /\
    (~ In trimmed (names (profiles st)) ->
     e = mkProfileData
           (mkProfileConfig trimmed (endurance (profile ap)) (pyramid (profile ap))
                            (preferredUnits (profile ap)) (password (profile ap))
                            (friends (profile ap))) [] /\
     profiles st' = profiles st ++ [e]) /\
    handleAddProfile "" st = Some st.
Proof.
  intros Hne Ht.
  unfold handleAddProfile. rewrite (proj2 (String.eqb_neq trimmed "") Ht).
  destruct (activeProfile st) as [ap|] eqn:Eap.
  2:{ exfalso. unfold activeProfile in Eap.
      destruct (find _ _); [discriminate|].
      destruct (profiles st); [contradiction | discriminate]. }
  set (p := mkProfileConfig trimmed (endurance (profile ap)) (pyramid (profile ap))
                            (preferredUnits (profile ap)) (password (profile ap))
                            (friends (profile ap))).
  pose proof (addProfile_has_name (profiles st) p) as Hhas.
  destruct (find_named_some _ _ Hhas) as [e [Hfind [Hin Hname]]].
  exists ap. eexists. exists e. split; [reflexivity|]. split; [reflexivity|].
  split; [reflexivity|]. split; [reflexivity|].
  split; [unfold activeProfile; cbn [profiles activeProfileName set_profiles
                                     set_activeProfileName];
          change (name p) with trimmed in Hfind; rewrite Hfind; reflexivity|].
  split; [exact Hname|].
  cbn [profiles set_profiles set_activeProfileName].
  split; [|split; [|reflexivity]].
  - intros Htaken. unfold addProfile in Hin |- *.
    rewrite (proj2 (some_named_iff (name p) (profiles st)) Htaken) in Hin |- *.
    split; [reflexivity | exact Hin].
  - intros Hnot.
    assert (Hex : existsb (named (name p)) (profiles st) = false).
    { destruct (existsb (named (name p)) (profiles st)) eqn:E; [|reflexivity].
      apply some_named_iff in E. contradiction. }
    unfold addProfile in Hfind |- *. rewrite Hex in Hfind |- *.
    rewrite find_app_named in Hfind.
    rewrite find_named_none in Hfind.
    + simpl in Hfind. unfold named in Hfind. simpl in Hfind.
      rewrite String.eqb_refl in Hfind. injection Hfind as <-.
      split; reflexivity.
    + intros e' He' Hn. apply Hnot. unfold names. apply in_map_iff.
      exists e'. split; assumption.
Qed.

Lemma handleAddProfile_selects_profile_witness :
  exists st' e,
    handleAddProfile "zoe" (Sample.idle "alex") = Some st' /\
    activeProfile st' = Some e /\
    e = mkProfileData
          (mkProfileConfig "zoe" (mkEndurance 15%Q) (mkPyramid []) kg None []) [] /\
    profiles st' = [Sample.bryceEntry; Sample.alexEntry] ++ [e].
Proof.
  destruct (handleAddProfile_selects_profile "zoe" (Sample.idle "alex")
              ltac:(discriminate) ltac:(discriminate))
    as (ap & st' & e & H0 & H1 & _ & _ & H3 & _ & _ & H6 & _).
  injection H0 as <-.
  exists st', e. split; [exact H1|]. split; [exact H3|].
  apply H6. simpl. intros [H | [H | []]]; discriminate H.
Defined.

(** X12. [handleTargetChange] and [handleUnitChange] rewrite only that
    field of the active profile's configuration.  The active profile
    becomes the same configuration with the new target (or the new
    units): name, pyramid, password, friends and the other of the two
    fields are kept, and so are its sessions.  In the collection, every
    entry with another name is exactly as before, every entry of that name
    gets this configuration and keeps its sessions, and nothing else of
    the application state changes. *)
Theorem edit_active_profile_keeps_history
        (value : Q) (u : Units) (st : AppState) (ap : ProfileData) :
  activeProfile st = Some ap ->
  let p := profile ap in
  let p1 := mkProfileConfig (name p) (mkEndurance value) (pyramid p)
                            (preferredUnits p) (password p) (friends p) in
  let p2 := mkProfileConfig (name p) (endurance p) (pyramid p) u
                            (password p) (friends p) in
  exists st1 st2,
    handleTargetChange value st = Some st1 /\
    handleUnitChange u st = Some st2 /\
    activeProfile st1 = Some (mkProfileData p1 (sessions ap)) /\
    activeProfile st2 = Some (mkProfileData p2 (sessions ap)) /\
    st1 = set_profiles (profiles st1) st /\
    st2 = set_profiles (profiles st2) st /\
    (forall i e, nth_error (profiles st) i = Some e ->
                 name (profile e) <> name p ->
                 nth_error (profiles st1) i = Some e /\
                 nth_error (profiles st2) i = Some e) /\
    (forall i e, nth_error (profiles st) i = Some e ->
                 name (profile e) = name p ->
                 nth_error (profiles st1) i = Some (mkProfileData p1 (sessions e)) /\
                 nth_error (profiles st2) i = Some (mkProfileData p2 (sessions e))) /\
    length (profiles st1) = length (profiles st) /\
    length (profiles st2) = length (profiles st) /\
    map sessions (profiles st1) = map sessions (profiles st) /\
    map sessions (profiles st2) = map sessions (profiles st) /\
    names (profiles st1) = names (profiles st) /\
    names (profiles st2) = names (profiles st).
Proof.
  intros Hap. cbv zeta.
  assert (Hsess : forall upd, map sessions (updateProfile (profiles st) upd) =
                              map sessions (profiles st)).
  { intros upd. unfold updateProfile. rewrite map_map. apply map_ext.
    intros e. destruct (named (name upd) e); reflexivity. }
  assert (Hact : forall edit,
             (forall p, name (edit p) = name p) ->
             activeProfile
               (set_profiles (updateProfile (profiles st) (edit (profile ap))) st) =
             Some (mkProfileData (edit (profile ap)) (sessions ap))).
  { intros edit Hedit.
    rewrite (activeProfile_map
               (fun e => if named (name (edit (profile ap))) e
                         then mkProfileData (edit (profile ap)) (sessions e)
                         else e) st _).
    - rewrite Hap. simpl. unfold named. rewrite Hedit, String.eqb_refl. reflexivity.
    - intros e. destruct (named (name (edit (profile ap))) e) eqn:E; [|reflexivity].
      simpl. symmetry. apply named_true. exact E.
    - reflexivity.
    - reflexivity. }
  assert (Hnth : forall upd i e,
             nth_error (profiles st) i = Some e ->
             (name (profile e) <> name upd ->
              nth_error (updateProfile (profiles st) upd) i = Some e) /\
             (name (profile e) = name upd ->
              nth_error (updateProfile (profiles st) upd) i =
              Some (mkProfileData upd (sessions e)))).
  { intros upd i e Hi. unfold updateProfile. rewrite nth_error_map, Hi. simpl.
    split; intros Hn.
    - rewrite (proj2 (named_false _ e) Hn). reflexivity.
    - rewrite (proj2 (named_true _ e) Hn). reflexivity. }
  unfold handleTargetChange, handleUnitChange, editActiveProfile. rewrite Hap.
  do 2 eexists.
  split; [reflexivity|]. split; [reflexivity|].
  split; [exact (Hact (fun p => mkProfileConfig (name p) (mkEndurance value)
                                 (pyramid p) (preferredUnits p) (password p)
                                 (friends p)) (fun _ => eq_refl))|].
  split; [exact (Hact (fun p => mkProfileConfig (name p) (endurance p)
                                 (pyramid p) u (password p) (friends p))
                      (fun _ => eq_refl))|].
  cbn [profiles set_profiles].
  split; [reflexivity|]. split; [reflexivity|].
  split; [intros i e Hi Hn; split; apply (Hnth _ i e Hi); exact Hn|].
  split; [intros i e Hi Hn; split; apply (Hnth _ i e Hi); exact Hn|].
  unfold updateProfile at 1 2. rewrite !length_map.
  rewrite !Hsess, !names_updateProfile.
  repeat (split; [reflexivity|]). reflexivity.
Qed.

Lemma edit_active_profile_keeps_history_witness :
  exists st1 st2,
    handleTargetChange 42%Q (Sample.idle "bryce") = Some st1 /\
    handleUnitChange lbf (Sample.idle "bryce") = Some st2 /\
    activeProfile st1 =
      Some (mkProfileData
              (mkProfileConfig "bryce" (mkEndurance 42%Q)
                               (mkPyramid [20; 30; 40; 30; 20]%Q) kg None [])
              [Sample.s1; Sample.s2]) /\
    activeProfile st2 =
      Some (mkProfileData
              (mkProfileConfig "bryce" (mkEndurance 35%Q)
                               (mkPyramid [20; 30; 40; 30; 20]%Q) lbf None [])
              [Sample.s1; Sample.s2]) /\
    nth_error (profiles st1) 1 = Some Sample.alexEntry.
Proof.
  destruct (edit_active_profile_keeps_history 42%Q lbf (Sample.idle "bryce")
              Sample.bryceEntry eq_refl)
    as (st1 & st2 & H1 & H2 & H3 & H4 & _ & _ & H7 & _).
  exists st1, st2. split; [exact H1|]. split; [exact H2|].
  split; [exact H3|]. split; [exact H4|].
  apply (H7 1%nat Sample.alexEntry); [reflexivity | simpl; discriminate].
Defined.

End ActiveProfileFacts.
(* ------------------------------------------------------------------ *)
(** ** Session recorder: the result of a fed session *)

Section SessionFacts.

Import Storage Collection Recorder Spec Timeline.

Lemma last_skipn {A} (d : A) : forall (k : nat) (l : list A),
  (k < length l)%nat -> last (skipn k l) d = last l d.
Proof.
  induction k as [|k IH]; intros l Hk; [reflexivity|].
  destruct l as [|x l]; [simpl in Hk; lia|].
  simpl in Hk. simpl skipn. rewrite IH by lia.
  destruct l as [|y l]; [simpl in Hk; lia | reflexivity].
Qed.

Lemma last_slice_last {A} (d : A) (l : list A) :
  last (slice_last BUFFER_POINTS l) d = last l d.
Proof.
  destruct l as [|x l]; [reflexivity|].
  unfold slice_last. apply last_skipn. simpl. unfold BUFFER_POINTS. lia.
Qed.

Lemma last_map {A B} (f : A -> B) (d : A) (l : list A) :
  last (map f l) (f d) = f (last l d).
Proof.
  induction l as [|x l IH]; [reflexivity|].
  destruct l as [|y l]; [reflexivity|]. exact IH.
Qed.

Lemma last_default_irrelevant {A} (d d' : A) (l : list A) :
  l <> [] -> last l d = last l d'.
Proof.
  induction l as [|x l IH]; intros H; [contradiction|].
  destruct l as [|y l]; [reflexivity|]. apply IH. discriminate.
Qed.

(** The whole result of a session with at least one sample. *)
Lemma runSession_result t0 pu rs newId tstop st ap :
  activeProfile st = Some ap -> rs <> [] ->
  exists first rest,
    first :: rest = map (recorded t0 pu) (slice_last BUFFER_POINTS rs) /\
    let s := buildSummary newId tstop ap (activeMode st) (sessionHand st)
                          first rest in
    let r := runSession t0 pu rs newId tstop st in
    summary r = Some s /\
    completion r = Returned /\
    profiles (state r) = addSession (profiles st) (name (profile ap)) s /\
    activeProfileName (state r) = activeProfileName st /\
    sessionActive (state r) = false.
Proof.
  intros Hap Hne.
  destruct (runSession_summary t0 pu rs newId tstop st ap Hap Hne)
    as (first & rest & Hbuf & Hslice & _).
  destruct (session_buffer t0 pu rs st) as [Hrec _].
  exists first, rest. split; [rewrite slice_last_map; exact Hslice|].
  cbv zeta. unfold runSession, stopSessionHandler. simpl negb. cbv iota.
  rewrite Hbuf, (recording_activeProfile _ _ _ Hrec), Hap.
  destruct Hrec as (_ & _ & Hp & Hn & Hm & Hh & _).
  cbn [summary completion state profiles activeProfileName sessionActive
       set_profiles set_session].
  rewrite Hp, Hn, Hm, Hh. repeat split.
Qed.

End SessionFacts.
(* ------------------------------------------------------------------ *)
(** ** Session recorder: the hold timer *)

Section HoldFacts.

Import Recorder Timeline.

Lemma ascendingFrom_weaken (a x : Z) (l : list Z) :
  ascendingFrom a (x :: l) -> ascendingFrom a l.
Proof.
  destruct l as [|y l]; simpl; [tauto|]. intros (H1 & H2 & H3). split; [lia | exact H3].
Qed.

Lemma ascendingFrom_skipn (k : nat) : forall (a : Z) (l : list Z),
  ascendingFrom a l -> ascendingFrom a (skipn k l).
Proof.
  induction k as [|k IH]; intros a l H; [exact H|].
  destruct l as [|x l]; [exact H|]. simpl skipn.
  apply IH. exact (ascendingFrom_weaken a x l H).
Qed.

Lemma ascendingFrom_shift (t0 : Z) (l : list Z) : forall a,
  ascendingFrom a l -> ascendingFrom (a - t0) (map (fun x => x - t0) l).
Proof.
  induction l as [|x l IH]; intros a H; simpl; [exact I|].
  destruct H as [H1 H2]. split; [lia | apply IH; exact H2].
Qed.

(** The recorded times of the buffer follow the session origin. *)
Lemma buffer_ascending t0 pu rs :
  ascendingFrom t0 (map fst rs) ->
  ascendingFrom 0 (map t_ms (map (recorded t0 pu) (slice_last BUFFER_POINTS rs))).
Proof.
  intros H.
  assert (E : forall l, map t_ms (map (recorded t0 pu) l) =
                        map (fun x => x - t0) (map fst l))
    by (intros l; rewrite !map_map; reflexivity).
  rewrite E. unfold slice_last. rewrite <- !skipn_map.
  apply ascendingFrom_skipn.
  replace 0 with (t0 - t0) by lia.
  apply ascendingFrom_shift. exact H.
Qed.

Lemma holdLoop_bounds (target : Q) (tf : Z) (rest : list SessionSample) :
  forall prev l c,
    ascendingFrom (t_ms prev) (map t_ms rest) ->
    tf <= t_ms prev ->
    0 <= l <= t_ms prev - tf -> 0 <= c <= t_ms prev - tf ->
    0 <= holdLoop target prev rest l c <= t_ms (last rest prev) - tf.
Proof.
  induction rest as [|s rest IH]; intros prev l c Hasc Htf Hl Hc.
  - simpl. exact Hl.
  - destruct Hasc as [Hstep Hasc].
    assert (Hlast : last (s :: rest) prev = last rest s).
    { destruct rest as [|y rest]; [reflexivity|].
      change (last (s :: y :: rest) prev) with (last (y :: rest) prev).
      apply last_default_irrelevant. discriminate. }
    rewrite Hlast. simpl holdLoop.
    destruct (Qle_bool target (s_force s)); apply IH; try assumption; lia.
Qed.

Lemma holdLoop_all_above (target : Q) (rest : list SessionSample) :
  forall prev c,
    ascendingFrom (t_ms prev) (map t_ms rest) ->
    Forall (fun s => (target <= s_force s)%Q) rest ->
    holdLoop target prev rest c c = c + (t_ms (last rest prev) - t_ms prev).
Proof.
  induction rest as [|s rest IH]; intros prev c Hasc Hall.
  - simpl. lia.
  - destruct Hasc as [Hstep Hasc]. inversion Hall as [|? ? Hs Hrest]; subst.
    assert (Hlast : last (s :: rest) prev = last rest s).
    { destruct rest as [|y rest]; [reflexivity|].
      change (last (s :: y :: rest) prev) with (last (y :: rest) prev).
      apply last_default_irrelevant. discriminate. }
    rewrite Hlast. simpl holdLoop.
    rewrite (proj2 (Qle_bool_iff target (s_force s)) Hs).
    replace (Z.max c (c + (t_ms s - t_ms prev))) with (c + (t_ms s - t_ms prev))
      by lia.
    rewrite (IH s _ Hasc Hrest). lia.
Qed.

Lemma holdLoop_none_above (target : Q) (rest : list SessionSample) :
  forall prev l c,
    Forall (fun s => ~ (target <= s_force s)%Q) rest ->
    holdLoop target prev rest l c = l.
Proof.
  induction rest as [|s rest IH]; intros prev l c Hall; [reflexivity|].
  inversion Hall as [|? ? Hs Hrest]; subst. simpl.
  destruct (Qle_bool target (s_force s)) eqn:E.
  - apply Qle_bool_iff in E. contradiction.
  - apply IH. exact Hrest.
Qed.

(** X15. When the clock readings of a session do not go back (each
    sample is taken no earlier than the session origin and the sample
    before it), the longest hold of the summary lies between 0 and the
    session's duration. *)
Theorem longest_hold_within_duration
        (t0 : Z) (pu : Units) (rs : list (Z * Q)) (newId : string) (tstop : Z)
        (st : AppState) (ap : ProfileData) :
  activeProfile st = Some ap -> rs <> [] ->
  ascendingFrom t0 (map fst rs) ->
  exists s,
    summary (runSession t0 pu rs newId tstop st) = Some s /\
    0 <= longestHoldMs s <= durationMs s.
Proof.
  intros Hap Hne Hasc.
  destruct (runSession_result t0 pu rs newId tstop st ap Hap Hne)
    as (first & rest & Hbuf & Hs & _).
  cbv zeta in Hs. eexists. split; [exact Hs|].
  pose proof (buffer_ascending t0 pu rs Hasc) as Hb.
  rewrite <- Hbuf in Hb. destruct Hb as [H0 Hb].
  unfold buildSummary. cbn [longestHoldMs durationMs].
  pose proof (holdLoop_bounds (targetForce (endurance (profile ap)))
                (t_ms first) rest first 0 0 Hb) as H.
  replace (last (first :: rest) first) with (last rest first)
    by (destruct rest; reflexivity).
  lia.
Qed.

Lemma longest_hold_within_duration_witness :
  exists s,
    summary (runSession 1000 kg (Sample.fourReadings 1000) "id" 1400
                        (Sample.idle "alex")) = Some s /\
    0 <= longestHoldMs s <= durationMs s.
Proof.
  apply (longest_hold_within_duration 1000 kg (Sample.fourReadings 1000) "id"
           1400 (Sample.idle "alex") Sample.alexEntry eq_refl).
  - discriminate.
  - simpl. lia.
Defined.

(** X16. With clock readings that do not go back: when every buffered
    sample after the first is at or above the target (whatever the first
    one is), the longest hold is the whole span from the first buffered
    sample to the last; when none of them reaches the target it is 0. *)
Theorem longest_hold_extremes
        (t0 : Z) (pu : Units) (rs : list (Z * Q)) (newId : string) (tstop : Z)
        (st : AppState) (ap : ProfileData) :
  activeProfile st = Some ap -> rs <> [] ->
  ascendingFrom t0 (map fst rs) ->
  let target := targetForce (endurance (profile ap)) in
  let buf := slice_last BUFFER_POINTS rs in
  exists s,
    summary (runSession t0 pu rs newId tstop st) = Some s /\
    (Forall (fun r => (target <= snd r)%Q) (tl buf) ->
     longestHoldMs s = fst (last buf (0, 0%Q)) - fst (hd (0, 0%Q) buf)) /\
    (Forall (fun r => ~ (target <= snd r)%Q) (tl buf) ->
     longestHoldMs s = 0).
Proof.
  intros Hap Hne Hasc. cbv zeta.
  destruct (runSession_result t0 pu rs newId tstop st ap Hap Hne)
    as (first & rest & Hbuf & Hs & _).
  cbv zeta in Hs. eexists. split; [exact Hs|].
  pose proof (buffer_ascending t0 pu rs Hasc) as Hb.
  rewrite <- Hbuf in Hb. destruct Hb as [_ Hb].
  unfold buildSummary. cbn [longestHoldMs].
  destruct (slice_last BUFFER_POINTS rs) as [|b0 brest] eqn:Ebuf;
    [discriminate Hbuf|].
  simpl map in Hbuf. injection Hbuf as -> ->.
  cbn [tl hd]. split; intros Hall.
  - rewrite holdLoop_all_above.
    + rewrite (last_default_irrelevant (0, 0%Q) b0) by discriminate.
      change (last (b0 :: brest) b0) with (last (b0 :: brest) b0).
      replace (last (b0 :: brest) b0) with (last brest b0)
        by (destruct brest; reflexivity).
      rewrite last_map. unfold recorded. cbn [t_ms]. lia.
    + exact Hb.
    + apply Forall_map. exact Hall.
  - apply holdLoop_none_above. apply Forall_map. exact Hall.
Qed.

Lemma longest_hold_extremes_witness :
  exists s,
    summary (runSession 0 kg [(0, 1%Q); (100, 40%Q); (250, 36%Q)] "id" 300
                        (Sample.idle "bryce")) = Some s /\
    longestHoldMs s = 250.
Proof.
  destruct (longest_hold_extremes 0 kg [(0, 1%Q); (100, 40%Q); (250, 36%Q)] "id"
              300 (Sample.idle "bryce") Sample.bryceEntry eq_refl
              ltac:(discriminate) ltac:(simpl; lia))
    as (s & H1 & H2 & _).
  exists s. split; [exact H1|].
  apply H2. unfold slice_last. simpl.
  repeat constructor; discriminate.
Defined.

End HoldFacts.

(* ------------------------------------------------------------------ *)
(** ** Wi-Fi transport adapter: what holds along every run *)

Section WifiInvariants.

Import Wifi WifiTrace.

Lemma existsb_snoc {A} (p : A -> bool) (l : list A) (c : A) :
  existsb p (l ++ [c]) = existsb p l || p c.
Proof. rewrite existsb_app. simpl. rewrite orb_false_r. reflexivity. Qed.

Lemma filter_snoc {A} (p : A -> bool) (l : list A) (c : A) :
  filter p (l ++ [c]) = filter p l ++ (if p c then [c] else []).
Proof. rewrite filter_app. reflexivity. Qed.

Lemma wellOrdered_snoc (c : Call) : forall (l : list Call) (seen : bool),
  wellOrdered seen l = true ->
  wellOrdered seen (l ++ [c]) =
  match c with
  | OnStatus Connected => negb (seen || existsb isConnectedStatus l)
  | OnSample _ => seen || existsb isConnectedStatus l
  | _ => true
  end.
Proof.
  induction l as [|x l IH]; intros seen H.
  - simpl. rewrite orb_false_r.
    destruct c as [[| |]| | |]; simpl; rewrite ?andb_true_r; reflexivity.
  - destruct x as [[| |]| | |]; simpl in H |- *;
      try (rewrite (IH seen H); reflexivity).
    + destruct seen; simpl in H; [discriminate|]. simpl.
      rewrite (IH true H). destruct c as [[| |]| | |]; reflexivity.
    + destruct seen; simpl in H; [|discriminate]. simpl.
      rewrite (IH true H). reflexivity.
Qed.

Lemma Inv_connect (tid : positive) (hasOnMeta : bool) : Inv (connect tid hasOnMeta).
Proof.
  unfold Inv. simpl. intuition discriminate.
Qed.

(** A call other than [onStatus("connected")], [onSample] and [onError]
    keeps the invariant. *)
Lemma Inv_emit_plain (c : Call) (w : State) :
  isConnectedStatus c = false -> isOnSample c = false -> isOnError c = false ->
  Inv w -> Inv (emit c w).
Proof.
  intros H1 H2 H3 (I1 & I2 & I3 & I4 & I5 & I6). unfold Inv. simpl.
  rewrite existsb_snoc, filter_snoc, (wellOrdered_snoc _ _ _ I2), H1, H3.
  rewrite orb_false_r, app_nil_r.
  split; [exact I1|]. split.
  - destruct c as [[| |]| | |]; try reflexivity; discriminate.
  - tauto.
Qed.

Lemma Inv_handleSample (s : ForceSample) (w : State) :
  Inv w -> Inv (handleSample s w).
Proof.
  intros (I1 & I2 & I3 & I4 & I5 & I6). unfold Inv, handleSample.
  destruct (connected w) eqn:Ec; simpl.
  - rewrite existsb_snoc, filter_snoc, (wellOrdered_snoc _ _ _ I2), I1, Ec.
    simpl. rewrite app_nil_r. tauto.
  - assert (I2' : wellOrdered false (calls w ++ [OnStatus Connected]) = true).
    { rewrite (wellOrdered_snoc _ _ _ I2), I1. reflexivity. }
    rewrite !existsb_snoc, !filter_snoc, (wellOrdered_snoc _ _ _ I2').
    rewrite existsb_snoc, I1. simpl. rewrite !app_nil_r. tauto.
Qed.

Lemma Inv_cleanup (w : State) : Inv w -> Inv (cleanup w).
Proof.
  intros (I1 & I2 & I3 & I4 & I5 & I6). unfold Inv, cleanup. simpl.
  rewrite existsb_snoc, filter_snoc, (wellOrdered_snoc _ _ _ I2).
  simpl. rewrite orb_false_r, app_nil_r.
  split; [exact I1|]. split; [reflexivity|].
  assert (Hdead : match pollId w with Some _ => false | None => intervalLive w end
                  = false).
  { destruct (pollId w) eqn:E; [reflexivity|].
    destruct (intervalLive w) eqn:El; [|reflexivity].
    exfalso. exact (I5 (I4 eq_refl) eq_refl). }
  rewrite Hdead. split; [|split; [discriminate | tauto]].
  destruct I3 as [I3 | (_ & Hp & _ & Hf)]; [left; exact I3|].
  right. tauto.
Qed.

Lemma Inv_pollFailed (w : State) :
  intervalLive w = true -> Inv w -> Inv (pollFailed w).
Proof.
  intros Hl HI. unfold pollFailed.
  destruct (active w) eqn:Ha; simpl; [|exact HI].
  destruct HI as (I1 & I2 & I3 & I4 & I5 & I6).
  pose proof (I4 Hl) as Hp.
  destruct I3 as [I3 | (Hact & _)]; [|congruence].
  unfold Inv, cleanup. simpl.
  rewrite !existsb_snoc, !filter_snoc.
  assert (I2' : wellOrdered false (calls w ++ [OnError WIFI_FALLBACK_MESSAGE]) = true)
    by (rewrite (wellOrdered_snoc _ _ _ I2); reflexivity).
  rewrite (wellOrdered_snoc _ _ _ I2'). simpl.
  rewrite !orb_false_r, app_nil_r, I3. simpl.
  destruct (pollId w) eqn:E; [|exfalso; exact (I5 Hp eq_refl)].
  split; [exact I1|]. split; [reflexivity|].
  split; [right; tauto|]. split; [discriminate | tauto].
Qed.

Lemma Inv_onPoll (r : FetchResult) (now : Z) (w : State) :
  intervalLive w = true -> Inv w -> Inv (onPoll r now w).
Proof.
  intros Hl HI. unfold onPoll.
  destruct r as [|[|] [| |p]]; try (apply Inv_pollFailed; assumption).
  apply Inv_handleSample.
  destruct (onMetaGiven w); [|exact HI].
  apply Inv_emit_plain; [reflexivity | reflexivity | reflexivity | exact HI].
Qed.

Lemma Inv_reject (w : State) : timer w = false -> Inv w -> Inv (reject w).
Proof.
  intros Ht HI. unfold reject.
  destruct (phase w) eqn:Ep; [|exact HI|exact HI].
  destruct HI as (I1 & I2 & I3 & I4 & I5 & I6).
  unfold Inv, startPolling. simpl. rewrite Ht.
  split; [exact I1|]. split; [exact I2|]. split.
  - destruct I3 as [I3 | (_ & Hp & _)]; [left; exact I3 | congruence].
  - split; [reflexivity|]. split; discriminate.
Qed.

Lemma Inv_resolve (w : State) :
  timer w = false -> phase w = Pending -> Inv w -> Inv (set_phase Streaming w).
Proof.
  intros Hoff Ep (I1 & I2 & I3 & I4 & I5 & I6). unfold Inv. simpl.
  split; [exact I1|]. split; [exact I2|]. split.
  - destruct I3 as [I3 | (_ & Hp & _)]; [left; exact I3 | congruence].
  - split; [|split; [discriminate|]].
    + intros Hl. pose proof (I4 Hl). congruence.
    + intros Ht. congruence.
Qed.

Lemma Inv_set_timer_off (w : State) : Inv w -> Inv (set_timer false w).
Proof.
  intros (I1 & I2 & I3 & I4 & I5 & I6). unfold Inv. simpl.
  repeat (split; [assumption|]). discriminate.
Qed.

Lemma Inv_close_ws (w : State) : Inv w -> Inv (close_ws w).
Proof. intros HI. exact HI. Qed.

Lemma Inv_step (e : Event) (w : State) : Inv w -> Inv (step e w).
Proof.
  intros HI. destruct e as [| | |data now| |r now|]; unfold step.
  - pose proof (Inv_set_timer_off w HI) as HI1.
    destruct (phase (set_timer false w)) eqn:Ep; [|exact HI1|exact HI1].
    apply Inv_resolve; [reflexivity | exact Ep | exact HI1].
  - apply Inv_reject; [reflexivity | apply Inv_set_timer_off; exact HI].
  - destruct (timer w); [|exact HI].
    apply Inv_reject; [reflexivity|].
    apply Inv_close_ws, Inv_set_timer_off. exact HI.
  - destruct (phase w); try exact HI.
    destruct (wsClosed w); [exact HI|].
    destruct data as [| |p]; try exact HI. apply Inv_handleSample. exact HI.
  - destruct (phase w); try exact HI.
    destruct (active w); [|exact HI].
    apply Inv_emit_plain; [reflexivity | reflexivity | reflexivity | exact HI].
  - destruct (intervalLive w) eqn:El; [|exact HI].
    apply Inv_onPoll; assumption.
  - apply Inv_cleanup. exact HI.
Qed.

Lemma Inv_run (es : list Event) : forall w, Inv w -> Inv (run es w).
Proof.
  induction es as [|e es IH]; intros w HI; [exact HI|].
  apply (IH (step e w)). apply Inv_step. exact HI.
Qed.

Lemma wellOrdered_connected_count (l : list Call) : forall seen,
  wellOrdered seen l = true ->
  (length (filter isConnectedStatus l) <= (if seen then 0 else 1))%nat.
Proof.
  induction l as [|x l IH]; intros seen H; [destruct seen; simpl; lia|].
  destruct x as [[| |]| | |]; simpl in H |- *; try (apply IH; exact H).
  - destruct seen; simpl in H; [discriminate|].
    pose proof (IH true H) as H'. simpl in H'. lia.
  - destruct seen; simpl in H; [|discriminate]. apply (IH true H).
Qed.

Lemma wellOrdered_no_early_sample (l : list Call) :
  wellOrdered false l = true ->
  existsb isConnectedStatus l = false -> filter isOnSample l = [].
Proof.
  induction l as [|x l IH]; intros H Hc; [reflexivity|].
  destruct x as [[| |]| | |]; simpl in H, Hc |- *;
    try discriminate; apply IH; assumption.
Qed.

(** X17. Along every run of a Wi-Fi connection,
    [onStatus("connected")] is invoked at most once and before the first
    [onSample]; as long as the adapter has not reported the connection, it
    has delivered no sample. *)
Theorem wifi_connected_once_before_samples
        (tid : positive) (hasOnMeta : bool) (es : list Event) :
  let w := run es (connect tid hasOnMeta) in
  wellOrdered false (calls w) = true /\
  (length (filter isConnectedStatus (calls w)) <= 1)%nat /\
  existsb isConnectedStatus (calls w) = connected w /\
  (connected w = false -> filter isOnSample (calls w) = []).
Proof.
  cbv zeta.
  destruct (Inv_run es _ (Inv_connect tid hasOnMeta)) as (I1 & I2 & _).
  split; [exact I2|]. split; [exact (wellOrdered_connected_count _ false I2)|].
  split; [exact I1|].
  intros Hc. apply wellOrdered_no_early_sample; [exact I2 | congruence].
Qed.

Lemma wifi_connected_once_before_samples_witness :
  let w := run [WsOpen; WsMessage JsonThrows 1; WsMessage JsonNull 2]
               (connect 1 true) in
  filter isOnSample (calls w) = [].
Proof.
  intros w.
  destruct (wifi_connected_once_before_samples 1 true
              [WsOpen; WsMessage JsonThrows 1; WsMessage JsonNull 2])
    as (_ & _ & _ & H).
  exact (H eq_refl).
Defined.

(** X18. Along every run of a Wi-Fi connection [onError] is invoked at
    most once, with the fixed message, and only by the polling strategy;
    once it has been invoked the adapter is torn down (inactive, interval
    cleared): it does not retry. *)
Theorem wifi_error_reported_once_then_torn_down
        (tid : positive) (hasOnMeta : bool) (es : list Event) :
  let w := run es (connect tid hasOnMeta) in
  (length (filter isOnError (calls w)) <= 1)%nat /\
  forall m, In (OnError m) (calls w) ->
            m = WIFI_FALLBACK_MESSAGE /\ phase w = Polling /\
            active w = false /\ intervalLive w = false.
Proof.
  cbv zeta.
  destruct (Inv_run es _ (Inv_connect tid hasOnMeta)) as (_ & _ & I3 & _).
  split.
  - destruct I3 as [-> | (_ & _ & _ & ->)]; simpl; lia.
  - intros m Hin.
    assert (Hf : In (OnError m) (filter isOnError (calls (run es (connect tid hasOnMeta)))))
      by (apply filter_In; split; [exact Hin | reflexivity]).
    destruct I3 as [I3 | (Ha & Hp & Hl & I3)]; rewrite I3 in Hf.
    + destruct Hf.
    + destruct Hf as [Hf | []]. injection Hf as <-. tauto.
Qed.

Lemma wifi_error_reported_once_then_torn_down_witness :
  let w := run [ConnectTimeout; PollTick (Response false JsonThrows) 10;
                PollTick FetchRejects 20; Cleanup] (connect 1 true) in
  phase w = Polling /\ active w = false /\ intervalLive w = false.
Proof.
  intros w.
  destruct (wifi_error_reported_once_then_torn_down 1 true
              [ConnectTimeout; PollTick (Response false JsonThrows) 10;
               PollTick FetchRejects 20; Cleanup]) as [_ H].
  destruct (H WIFI_FALLBACK_MESSAGE) as (_ & H2 & H3 & H4).
  - right. left. reflexivity.
  - split; [exact H2|]. split; [exact H3 | exact H4].
Defined.

Lemma phase_settled_step (e : Event) (w : State) :
  phase w <> Pending -> phase (step e w) = phase w.
Proof.
  intros Hp. destruct e as [| | |data now| |r now|];
    unfold step, reject, onMessage, onPoll, pollFailed, handleSample, cleanup;
    simpl;
    repeat match goal with
           | |- context [match ?x with _ => _ end] => destruct x eqn:?
           end; simpl in *; congruence.
Qed.

Lemma phase_settled_run (es : list Event) : forall w,
  phase w <> Pending -> phase (run es w) = phase w.
Proof.
  induction es as [|e es IH]; intros w Hp; [reflexivity|].
  change (run (e :: es) w) with (run es (step e w)).
  rewrite IH; rewrite phase_settled_step; congruence.
Qed.

Lemma run_app (es es' : list Event) (w : State) :
  run (es ++ es') w = run es' (run es w).
Proof. unfold run. apply fold_left_app. Qed.

(** X19. A connection uses one source only: once its connect promise
    has settled, no later event changes the strategy.  In particular,
    after the socket has opened, a later socket error, close or timeout
    never starts polling and never makes the adapter call [onError]. *)
Theorem wifi_source_settles_once
        (tid : positive) (hasOnMeta : bool) (es es' : list Event) :
  let w := run es (connect tid hasOnMeta) in
  let w' := run es' w in
  (phase w <> Pending -> phase w' = phase w) /\
  (phase w = Streaming ->
   intervalLive w' = false /\ filter isOnError (calls w') = []).
Proof.
  cbv zeta. split; [apply phase_settled_run|].
  intros Hs.
  assert (Hs' : phase (run es' (run es (connect tid hasOnMeta))) = Streaming)
    by (rewrite phase_settled_run; congruence).
  rewrite <- run_app in Hs' |- *.
  destruct (Inv_run (es ++ es') _ (Inv_connect tid hasOnMeta))
    as (_ & _ & I3 & I4 & _).
  split.
  - destruct (intervalLive _) eqn:El; [|reflexivity].
    pose proof (I4 eq_refl). congruence.
  - destruct I3 as [I3 | (_ & Hp & _)]; [exact I3 | congruence].
Qed.

Lemma wifi_source_settles_once_witness :
  let w := run [WsOpen] (connect 1 true) in
  let w' := run [WsError; ConnectTimeout; WsClose;
                 PollTick FetchRejects 10] w in
  phase w' = Streaming /\ intervalLive w' = false /\
  filter isOnError (calls w') = [].
Proof.
  intros w w'.
  destruct (wifi_source_settles_once 1 true [WsOpen]
              [WsError; ConnectTimeout; WsClose; PollTick FetchRejects 10])
    as [H1 H2].
  split; [apply H1; discriminate | apply H2; reflexivity].
Defined.

Lemma Quiet_unchanged (w : State) :
  Quiet w ->
  Quiet w /\
  exists l, calls w = calls w ++ l /\
            Forall (fun c => c = OnStatus Disconnected) l.
Proof.
  intros HQ. split; [exact HQ|].
  exists []. rewrite app_nil_r. split; [reflexivity | constructor].
Qed.

Lemma Quiet_step (e : Event) (w : State) :
  Quiet w ->
  Quiet (step e w) /\
  exists l, calls (step e w) = calls w ++ l /\
            Forall (fun c => c = OnStatus Disconnected) l.
Proof.
  intros HQ. pose proof HQ as (Ha & Hc & Hl & Hp).
  assert (Htimer : Quiet (set_timer false w)) by exact HQ.
  assert (Hclose : Quiet (close_ws (set_timer false w)))
    by (unfold Quiet; simpl; tauto).
  assert (Hrej : forall v, phase v = phase w -> reject v = v).
  { intros v Hv. unfold reject. rewrite Hv.
    destruct (phase w); [contradiction | reflexivity | reflexivity]. }
  destruct e as [| | |data now| |r now|]; unfold step.
  - replace (match phase (set_timer false w) with
             | Pending => set_phase Streaming (set_timer false w)
             | _ => set_timer false w
             end) with (set_timer false w)
      by (simpl; destruct (phase w); [contradiction | reflexivity | reflexivity]).
    apply (Quiet_unchanged _ Htimer).
  - rewrite Hrej by reflexivity. apply (Quiet_unchanged _ Htimer).
  - destruct (timer w); [|apply Quiet_unchanged; exact HQ].
    rewrite Hrej by reflexivity. apply (Quiet_unchanged _ Hclose).
  - rewrite Hc. destruct (phase w); apply Quiet_unchanged; exact HQ.
  - rewrite Ha. destruct (phase w); apply Quiet_unchanged; exact HQ.
  - rewrite Hl. apply Quiet_unchanged; exact HQ.
  - split.
    + unfold Quiet, cleanup. simpl. rewrite Hl.
      destruct (pollId w); tauto.
    + exists [OnStatus Disconnected]. split; [reflexivity|].
      constructor; [reflexivity | constructor].
Qed.

Lemma Quiet_run (es : list Event) : forall w,
  Quiet w ->
  Quiet (run es w) /\
  exists l, calls (run es w) = calls w ++ l /\
            Forall (fun c => c = OnStatus Disconnected) l.
Proof.
  induction es as [|e es IH]; intros w HQ.
  - split; [exact HQ|]. exists []. rewrite app_nil_r. split; [reflexivity | constructor].
  - destruct (Quiet_step e w HQ) as [HQ1 [l1 [E1 F1]]].
    destruct (IH _ HQ1) as [HQ2 [l2 [E2 F2]]].
    split; [exact HQ2|].
    exists (l1 ++ l2). split.
    + change (run (e :: es) w) with (run es (step e w)).
      rewrite E2, E1, app_assoc. reflexivity.
    + apply Forall_app. split; assumption.
Qed.

(** X20. After the cleanup of a connection whose connect promise has
    settled, no socket event and no poll tick that fires afterwards
    (a tick being taken together with the outcome of its request) makes
    the adapter call a handler: the only further calls are the
    [onStatus("disconnected")] of repeated cleanups, and the adapter stays
    inactive. *)
Theorem wifi_quiet_after_cleanup
        (tid : positive) (hasOnMeta : bool) (es es' : list Event) :
  let w := run es (connect tid hasOnMeta) in
  phase w <> Pending ->
  let w' := run es' (cleanup w) in
  Forall (fun c => c = OnStatus Disconnected) (newCalls (cleanup w) w') /\
  active w' = false /\ intervalLive w' = false.
Proof.
  cbv zeta. intros Hp.
  destruct (Inv_run es _ (Inv_connect tid hasOnMeta)) as (_ & _ & _ & I4 & I5 & _).
  set (w := run es (connect tid hasOnMeta)) in *.
  assert (HQ : Quiet (cleanup w)).
  { unfold Quiet, cleanup. simpl. repeat split; try assumption.
    destruct (pollId w) eqn:E; [reflexivity|].
    destruct (intervalLive w) eqn:El; [|reflexivity].
    exfalso. exact (I5 (I4 eq_refl) eq_refl). }
  destruct (Quiet_run es' _ HQ) as [(Ha & _ & Hl & _) [l [E F]]].
  split; [|split; assumption].
  rewrite (newCalls_app _ _ l E). exact F.
Qed.

Lemma wifi_quiet_after_cleanup_witness :
  let w := run [WsError; PollTick (Response true (JsonValue
                  (mkPayload (Some 30%Q) (Some kg) (Some 5) None None))) 5]
               (connect 1 true) in
  let w' := run [PollTick FetchRejects 200; WsMessage JsonThrows 300; WsClose]
                (cleanup w) in
  Forall (fun c => c = OnStatus Disconnected) (newCalls (cleanup w) w') /\
  active w' = false /\ intervalLive w' = false.
Proof.
  intros w w'.
  apply (wifi_quiet_after_cleanup 1 true
           [WsError; PollTick (Response true (JsonValue
              (mkPayload (Some 30%Q) (Some kg) (Some 5) None None))) 5]
           [PollTick FetchRejects 200; WsMessage JsonThrows 300; WsClose]).
  discriminate.
Defined.

End WifiInvariants.

(* ------------------------------------------------------------------ *)
(** ** Connection orchestrator: completed calls *)

Section OrchestratorTraces.

Import Wifi Orchestrator OrchestratorTrace.

Lemma completed_run_settled (es : list Event) : forall h,
  settled h -> forallb completed es = true -> settled (run es h).
Proof.
  induction es as [|e es IH]; intros h Hs Hc; [exact Hs|].
  simpl in Hc. apply andb_true_iff in Hc. destruct Hc as [He Hc].
  change (run (e :: es) h) with (run es (step e h)).
  apply IH; [|exact Hc].
  destruct e as [[|m]| | |]; try discriminate He.
  - apply connect_settled. exact Hs.
  - apply disconnect_settled. exact Hs.
Qed.

Lemma run_snoc (es : list Event) (e : Event) (h : Hook) :
  run (es ++ [e]) h = step e (run es h).
Proof. unfold run. rewrite fold_left_app. reflexivity. Qed.

(** X21. Over any sequence of completed calls, [connect()]s whose adapter
    promise fulfils and [disconnect()]s, starting from the initial hook:
    after a [connect()] exactly one transport is active and its cleanup is
    stored; after a [disconnect()] none is active and no cleanup is
    stored, and a second [disconnect()] changes nothing. *)
Theorem completed_calls_keep_one_transport (es : list Event) :
  forallb completed es = true ->
  let h := run es initial in
  (activeCount (step (Connect Fulfilled) h) = 1%nat /\
   cleanupRef (step (Connect Fulfilled) h) <> None) /\
  (activeCount (step Disconnect h) = 0%nat /\
   cleanupRef (step Disconnect h) = None /\
   step Disconnect (step Disconnect h) = step Disconnect h) /\
  (activeCount h <= 1)%nat.
Proof.
  intros Hc. cbv zeta.
  pose proof (completed_run_settled es initial initial_settled Hc) as Hs.
  split; [|split].
  - split; [apply connect_settled; exact Hs|].
    unfold step, connect, connectStart, connectSettle. discriminate.
  - split; [apply disconnect_settled; exact Hs|].
    split; [reflexivity|].
    unfold step, disconnect. simpl.
    destruct (cleanupRef (run es initial)); reflexivity.
  - destruct es as [|e0 es0] using rev_ind; [cbv; lia|].
    rewrite forallb_app in Hc. apply andb_true_iff in Hc.
    destruct Hc as [Hc0 He]. simpl in He. rewrite andb_true_r in He.
    pose proof (completed_run_settled es0 initial initial_settled Hc0) as Hs0.
    rewrite run_snoc.
    destruct e0 as [[|m]| | |]; try discriminate He.
    + unfold step. rewrite (proj2 (connect_settled _ Hs0)). lia.
    + unfold step. rewrite (proj2 (disconnect_settled _ Hs0)). lia.
Qed.

Lemma completed_calls_keep_one_transport_witness :
  let h := run [Connect Fulfilled; Disconnect; Connect Fulfilled;
                Connect Fulfilled] initial in
  activeCount (step (Connect Fulfilled) h) = 1%nat /\
  activeCount (step Disconnect h) = 0%nat /\
  (activeCount h <= 1)%nat.
Proof.
  intros h.
  destruct (completed_calls_keep_one_transport
              [Connect Fulfilled; Disconnect; Connect Fulfilled; Connect Fulfilled]
              eq_refl) as [[H1 _] [[H2 _] H3]].
  split; [exact H1|]. split; [exact H2 | exact H3].
Defined.

End OrchestratorTraces.

(* ------------------------------------------------------------------ *)
(** ** Bluetooth transport adapter *)

Section BluetoothFacts.

Import Wifi Bluetooth.

Lemma allowed_connect (h : Handshake) (now : Z) :
  Forall allowed (calls (fst (connect h now))).
Proof.
  destruct h as [| | | | | | |[f|]|[f|]]; simpl;
    repeat constructor.
Qed.

Lemma allowed_step (e : Event) (b : State) :
  Forall allowed (calls b) -> Forall allowed (calls (step e b)).
Proof.
  intros H.
  assert (Hemit : forall c s, allowed c -> Forall allowed (calls s) ->
                              Forall allowed (calls (emit c s))).
  { intros c s Hc Hs. simpl. apply Forall_app. split; [exact Hs|].
    constructor; [exact Hc | constructor]. }
  destruct e as [value now| |]; unfold step.
  - destruct (subscribed b); [|exact H]. unfold handleValue.
    destruct (active b); simpl negb; cbv iota; [|exact H].
    destruct value as [[parsed|]|]; try exact H.
    apply Hemit; [reflexivity|]. apply Hemit; [exact I | exact H].
  - destruct (deviceListener b); [|exact H].
    destruct (active b); [|exact H]. apply Hemit; [exact I | exact H].
  - unfold cleanup. apply Hemit; [exact I | exact H].
Qed.

(** X22. The Bluetooth adapter never calls [onError] or [onMeta], and
    every sample it delivers, the first read included, is in lbf: this
    holds for every way the handshake can end and every sequence of
    notifications, remote disconnects and cleanups after it. *)
Theorem bluetooth_calls_status_and_lbf_samples
        (h : Handshake) (now : Z) (es : list Event) :
  let b := run es (fst (connect h now)) in
  (forall s, In (OnSample s) (calls b) -> units s = lbf) /\
  filter isOnError (calls b) = [] /\
  (forall m, ~ In (OnMeta m) (calls b)).
Proof.
  cbv zeta.
  assert (H : Forall allowed (calls (run es (fst (connect h now))))).
  { generalize (allowed_connect h now).
    generalize (fst (connect h now)) as b.
    induction es as [|e es IH]; intros b Hb; [exact Hb|].
    apply (IH (step e b)). apply allowed_step. exact Hb. }
  rewrite Forall_forall in H. split; [|split].
  - intros s Hs. exact (H _ Hs).
  - destruct (filter isOnError _) as [|c l] eqn:E; [reflexivity|].
    assert (Hc : In c (filter isOnError (calls (run es (fst (connect h now))))))
      by (rewrite E; left; reflexivity).
    apply filter_In in Hc. destruct Hc as [Hin Herr].
    destruct c; try discriminate Herr. destruct (H _ Hin).
  - intros m Hm. exact (H _ Hm).
Qed.

Lemma bluetooth_calls_status_and_lbf_samples_witness :
  units (sampleAt 31%Q 40) = lbf.
Proof.
  destruct (bluetooth_calls_status_and_lbf_samples (Completed (Some 30%Q)) 0
              [ValueChanged (Some (Some 31%Q)) 40]) as [H _].
  apply H. do 4 right. left. reflexivity.
Defined.

(** X23. How a Bluetooth [connect] ends.  Without platform support it
    throws the fixed message before calling any handler.  Otherwise the
    first call is [onStatus("connecting")]; the connect returns its
    cleanup exactly when the whole handshake fulfils, and only then is
    [onStatus("connected")] reported and the notification listener
    installed; a first value that decodes is delivered as a sample before
    that, even when the handshake then fails at [startNotifications]. *)
Theorem bluetooth_connect_outcomes (h : Handshake) (now : Z) :
  let b := fst (connect h now) in
  let out := snd (connect h now) in
  (h = NoBluetooth ->
   calls b = [] /\ out = Throws (Some UNSUPPORTED_MESSAGE)) /\
  (h <> NoBluetooth ->
   hd_error (calls b) = Some (OnStatus Connecting) /\ active b = true) /\
  (out = Returns <-> exists first, h = Completed first) /\
  (subscribed b = true <-> out = Returns) /\
  (In (OnStatus Connected) (calls b) <-> out = Returns) /\
  (forall f, firstRead h = Some f -> In (OnSample (sampleAt f now)) (calls b)).
Proof.
  cbv zeta. split; [|split; [|split; [|split; [|split]]]].
  - intros ->. split; reflexivity.
  - intros Hn. destruct h as [| | | | | | |[f|]|[f|]];
      try contradiction; split; reflexivity.
  - split.
    + destruct h as [| | | | | | |[f|]|[f|]]; simpl; intros H;
        try discriminate H; eexists; reflexivity.
    + intros [first ->]. reflexivity.
  - split; destruct h as [| | | | | | |[f|]|[f|]]; simpl; intros H;
      try discriminate H; reflexivity.
  - split; destruct h as [| | | | | | |[f|]|[f|]]; simpl; intros H;
      try reflexivity; try discriminate H; intuition discriminate.
  - intros f. destruct h as [| | | | | | |[f'|]|[f'|]]; simpl; intros H;
      try discriminate H; injection H as ->; auto.
Qed.

Lemma bluetooth_connect_outcomes_witness :
  calls (fst (connect NoBluetooth 0)) = [] /\
  active (fst (connect (NotifyRejected (Some 12.5%Q)) 7)) = true /\
  In (OnSample (sampleAt 12.5%Q 7))
     (calls (fst (connect (NotifyRejected (Some 12.5%Q)) 7))).
Proof.
  destruct (bluetooth_connect_outcomes NoBluetooth 0) as [H1 _].
  destruct (bluetooth_connect_outcomes (NotifyRejected (Some 12.5%Q)) 7)
    as (_ & H2 & _ & _ & _ & H6).
  split; [exact (proj1 (H1 eq_refl))|].
  split; [exact (proj2 (H2 ltac:(discriminate))) | exact (H6 _ eq_refl)].
Defined.

Lemma cleaned_step (e : Event) (b : State) :
  active b = false ->
  active (step e b) = false /\
  exists l, calls (step e b) = calls b ++ l /\
            Forall (fun c => c = OnStatus Disconnected) l.
Proof.
  intros Ha.
  assert (Hsame : active b = false /\
                  exists l, calls b = calls b ++ l /\
                            Forall (fun c => c = OnStatus Disconnected) l).
  { split; [exact Ha|]. exists []. rewrite app_nil_r.
    split; [reflexivity | constructor]. }
  destruct e as [value now| |]; unfold step.
  - destruct (subscribed b); [|exact Hsame].
    unfold handleValue. rewrite Ha. exact Hsame.
  - rewrite Ha. destruct (deviceListener b); exact Hsame.
  - split; [reflexivity|]. exists [OnStatus Disconnected].
    split; [reflexivity|]. constructor; [reflexivity | constructor].
Qed.

(** X24. After the cleanup of a Bluetooth connection no notification
    and no remote disconnect makes the adapter call a handler, whatever
    arrives and in whatever state the cleanup found the adapter: the only
    further calls are the [onStatus("disconnected")] of repeated cleanups.
    A notification without a value, or whose payload does not decode, is
    dropped without a call at any time. *)
Theorem bluetooth_quiet_after_cleanup (b : State) (es : list Event) (now : Z) :
  let b' := run es (cleanup b) in
  (exists l, calls b' = calls (cleanup b) ++ l /\
             Forall (fun c => c = OnStatus Disconnected) l) /\
  active b' = false /\
  step (ValueChanged None now) b = b /\
  step (ValueChanged (Some None) now) b = b.
Proof.
  cbv zeta. split; [|split; [|split]].
  - assert (Ha : active (cleanup b) = false) by reflexivity.
    revert Ha. generalize (cleanup b) as c.
    induction es as [|e es IH]; intros c Ha.
    + exists []. rewrite app_nil_r. split; [reflexivity | constructor].
    + destruct (cleaned_step e c Ha) as [Ha1 [l1 [E1 F1]]].
      destruct (IH _ Ha1) as [l2 [E2 F2]].
      exists (l1 ++ l2). split.
      * change (run (e :: es) c) with (run es (step e c)).
        rewrite E2, E1, app_assoc. reflexivity.
      * apply Forall_app. split; assumption.
  - assert (Ha : active (cleanup b) = false) by reflexivity.
    revert Ha. generalize (cleanup b) as c.
    induction es as [|e es IH]; intros c Ha; [exact Ha|].
    apply (IH (step e c)). apply cleaned_step. exact Ha.
  - unfold step, handleValue. destruct (subscribed b), (active b); reflexivity.
  - unfold step, handleValue. destruct (subscribed b), (active b); reflexivity.
Qed.

End BluetoothFacts.

(* ------------------------------------------------------------------ *)
(** ** Session recorder with running accumulators *)

Section AccumulatingFacts.

Import Accumulating Spec.











End AccumulatingFacts.

(* ------------------------------------------------------------------ *)
(** ** Sessions as the component runs them *)

Section LifecycleFacts.

Import Storage Collection Recorder Spec Lifecycle.

Lemma effect_keeps_context (now : Z) (f : Q) (pu : Units) (st : AppState) :
  activeProfile (sessionSampleEffect now f pu st) = activeProfile st /\
  sessionActive (sessionSampleEffect now f pu st) = sessionActive st.
Proof.
  unfold sessionSampleEffect. destruct (sessionActive st) eqn:E; simpl.
  - split; reflexivity.
  - split; [reflexivity | exact E].
Qed.

Lemma effect_when_idle (now : Z) (f : Q) (pu : Units) (st : AppState) :
  sessionActive st = false -> sessionSampleEffect now f pu st = st.
Proof. intros H. unfold sessionSampleEffect. rewrite H. reflexivity. Qed.

Lemma effect_buffer_nonempty (now : Z) (f : Q) (pu : Units) (st : AppState) :
  sessionActive st = true ->
  sessionSamplesRef (sessionSampleEffect now f pu st) <> [].
Proof.
  intros H. unfold sessionSampleEffect. rewrite H. simpl.
  intros E. apply (f_equal (@length _)) in E.
  rewrite slice_last_length, length_app in E. simpl in E.
  unfold BUFFER_POINTS in E. lia.
Qed.

(** What a commit leaves, when the render does not throw. *)
Lemma commit_result (now : Z) (v : View) (ap : ProfileData) :
  activeProfile (app v) = Some ap ->
  exists v',
    commit now v = Some v' /\
    sample v' = sample v /\
    settledView v' /\
    activeProfile (app v') = Some ap /\
    sessionActive (app v') = sessionActive (app v) /\
    (app v' = app v \/
     app v' = sessionSampleEffect now
                (convertedFor (preferredUnits (profile ap)) (sample v))
                (preferredUnits (profile ap)) (app v)).
Proof.
  intros Hap. unfold commit, render. rewrite Hap.
  eexists. split; [reflexivity|]. cbn [sample app committed].
  set (d := mkDeps _ _ _).
  set (changed := match committed v with
                  | Some d0 => negb (sameDeps d0 d)
                  | None => true
                  end).
  pose proof (effect_keeps_context now (d_convertedForce d) (d_preferredUnits d)
                (app v)) as [Hk1 Hk2].
  assert (Hctx : activeProfile
                   (if changed
                    then sessionSampleEffect now (d_convertedForce d)
                                             (d_preferredUnits d) (app v)
                    else app v) = Some ap /\
                 sessionActive
                   (if changed
                    then sessionSampleEffect now (d_convertedForce d)
                                             (d_preferredUnits d) (app v)
                    else app v) = sessionActive (app v)).
  { destruct changed; [rewrite Hk1, Hk2 | ]; split; auto. }
  destruct Hctx as [Hc1 Hc2].
  split; [reflexivity|]. split.
  - unfold settledView, render. cbn [app sample committed].
    rewrite Hc1, Hc2. split; [discriminate | reflexivity].
  - split; [exact Hc1|]. split; [exact Hc2|].
    destruct changed; [right | left]; reflexivity.
Qed.

Lemma settled_active_profile (v : View) :
  settledView v ->
  exists ap,
    activeProfile (app v) = Some ap /\
    committed v =
      Some (mkDeps (convertedFor (preferredUnits (profile ap)) (sample v))
                   (preferredUnits (profile ap)) (sessionActive (app v))).
Proof.
  intros [Hr Hc]. unfold render in *.
  destruct (activeProfile (app v)) as [ap|]; [|contradiction].
  exists ap. split; [reflexivity | exact Hc].
Qed.

(** The active profile after a stop: the same configuration, with the
    summary in front of its sessions when one was stored. *)
Lemma stop_active_profile (notified : bool) (newId : string) (now : Z)
      (st : AppState) (ap : ProfileData) :
  activeProfile st = Some ap ->
  let r := stopSessionHandler notified newId now st in
  sessionActive (state r) = false /\
  activeProfile (state r) =
    Some (mkProfileData (profile ap)
            (match summary r with
             | Some s => s :: sessions ap
             | None => sessions ap
             end)).
Proof.
  intros Hap. cbv zeta. unfold stopSessionHandler.
  assert (Hsame : forall a b c,
             activeProfile (set_session false a b c st) =
             Some (mkProfileData (profile ap) (sessions ap))).
  { intros a b c. change (activeProfile (set_session false a b c st))
      with (activeProfile st). rewrite Hap. destruct ap; reflexivity. }
  destruct notified; simpl negb; cbv iota; [|split; [reflexivity | apply Hsame]].
  destruct (sessionSamplesRef st) as [|first rest];
    [split; [reflexivity | apply Hsame]|].
  rewrite Hap. cbn [state summary]. split; [reflexivity|].
  set (s := buildSummary _ _ _ _ _ _ _).
  rewrite (activeProfile_map
             (fun e => if named (name (profile ap)) e
                       then mkProfileData (profile e) (s :: sessions e)
                       else e) st _).
  - rewrite Hap. simpl. unfold named. rewrite String.eqb_refl. reflexivity.
  - intros e. destruct (named (name (profile ap)) e); reflexivity.
  - reflexivity.
  - reflexivity.
Qed.

Lemma click_while_idle (now nowEffect : Z) (notified : bool) (newId : string)
      (v : View) (ap : ProfileData) :
  settledView v -> activeProfile (app v) = Some ap ->
  sessionActive (app v) = false ->
  let pu := preferredUnits (profile ap) in
  let f0 := convertedFor pu (sample v) in
  exists v1,
    clickSession now nowEffect notified newId v = Some (None, v1) /\
    sample v1 = sample v /\
    settledView v1 /\
    app v1 = sessionSampleEffect nowEffect f0 pu (startSessionHandler now (app v)) /\
    sessionSamplesRef (app v1) = [mkSessionSample (nowEffect - now) f0 pu] /\
    recordingView ap f0 [f0] v1.
Proof.
  intros Hset Hap Hidle. cbv zeta.
  destruct (settled_active_profile v Hset) as [ap' [Hap' Hc]].
  rewrite Hap in Hap'. injection Hap' as <-.
  unfold clickSession. rewrite Hidle.
  unfold commit, render. cbn [app sample committed].
  change (activeProfile (startSessionHandler now (app v)))
    with (activeProfile (app v)).
  rewrite Hap, Hc, Hidle.
  assert (Hchg : sameDeps
                   (mkDeps (convertedFor (preferredUnits (profile ap)) (sample v))
                           (preferredUnits (profile ap)) false)
                   (mkDeps (convertedFor (preferredUnits (profile ap)) (sample v))
                           (preferredUnits (profile ap))
                           (sessionActive (startSessionHandler now (app v))))
                 = false).
  { unfold sameDeps. simpl. apply andb_false_r. }
  rewrite Hchg. simpl negb. cbv iota.
  eexists. split; [reflexivity|]. cbn [sample app committed d_convertedForce
                                       d_preferredUnits].
  split; [reflexivity|].
  assert (Hbuf : sessionSamplesRef
                   (sessionSampleEffect nowEffect
                      (convertedFor (preferredUnits (profile ap)) (sample v))
                      (preferredUnits (profile ap))
                      (startSessionHandler now (app v))) =
                 [mkSessionSample (nowEffect - now)
                    (convertedFor (preferredUnits (profile ap)) (sample v))
                    (preferredUnits (profile ap))])
    by reflexivity.
  split.
  - unfold settledView, render. cbn [app sample committed].
    change (activeProfile (sessionSampleEffect _ _ _ _))
      with (activeProfile (app v)).
    rewrite Hap. split; [discriminate | reflexivity].
  - split; [reflexivity|]. split; [exact Hbuf|].
    unfold recordingView. cbn [app committed].
    split; [exact Hap|]. split; [reflexivity|]. split; [reflexivity|].
    rewrite Hbuf. reflexivity.
Qed.



Lemma commit_when_idle (now : Z) (v : View) (ap : ProfileData) :
  activeProfile (app v) = Some ap -> sessionActive (app v) = false ->
  exists v',
    commit now v = Some v' /\ app v' = app v /\ sample v' = sample v /\
    settledView v'.
Proof.
  intros Hap Hidle.
  destruct (commit_result now v ap Hap) as (v' & Hc & Hs & Hset & _ & _ & Happ).
  exists v'. split; [exact Hc|]. split; [|split; [exact Hs | exact Hset]].
  destruct Happ as [-> | ->]; [reflexivity | apply effect_when_idle; exact Hidle].
Qed.

(** A click while a session is active runs [stopSessionHandler]; the render
    that follows finds the session inactive and records nothing. *)
Lemma click_while_active (now nowEffect : Z) (notified : bool) (newId : string)
      (v : View) (ap : ProfileData) :
  activeProfile (app v) = Some ap -> sessionActive (app v) = true ->
  let r := stopSessionHandler notified newId now (app v) in
  exists v',
    clickSession now nowEffect notified newId v = Some (Some r, v') /\
    app v' = state r /\ sample v' = sample v /\ settledView v'.
Proof.
  intros Hap Hact. cbv zeta.
  destruct (stop_active_profile notified newId now (app v) ap Hap)
    as [Hidle Hprof].
  destruct (commit_when_idle nowEffect
              (mkView (state (stopSessionHandler notified newId now (app v)))
                      (sample v) (committed v)) _ Hprof Hidle)
    as (v' & Hcommit & Happ & Hs & Hset).
  exists v'. unfold clickSession. rewrite Hact, Hcommit.
  split; [reflexivity|]. split; [exact Happ|]. split; [exact Hs | exact Hset].
Qed.

(** [stopSessionHandler] on a non-empty buffer, for both outcomes of the
    notification. *)
Lemma stop_on_buffer (notified : bool) (newId : string) (now : Z)
      (st : AppState) (ap : ProfileData)
      (first : SessionSample) (rest : list SessionSample) :
  activeProfile st = Some ap -> sessionSamplesRef st = first :: rest ->
  let r := stopSessionHandler notified newId now st in
  let s := buildSummary newId now ap (activeMode st) (sessionHand st)
                        first rest in
  (notified = true ->
   completion r = Returned /\ summary r = Some s /\
   profiles (state r) = addSession (profiles st) (name (profile ap)) s) /\
  (notified = false ->
   completion r = Threw /\ summary r = None /\ profiles (state r) = profiles st).
Proof.
  intros Hap Hbuf. cbv zeta. unfold stopSessionHandler.
  split; intros ->; simpl negb; cbv iota.
  - rewrite Hbuf, Hap. repeat split.
  - repeat split.
Qed.


Lemma step_good (e : Event) (v : View) :
  Good v -> exists v', step e v = Some v' /\ Good v'.
Proof.
  intros [Hset Hne].
  destruct (settled_active_profile v Hset) as [ap [Hap Hc]].
  destruct e as [s now | now nowEffect notified newId]; unfold step.
  - destruct (commit_result now (mkView (app v) s (committed v)) ap Hap)
      as (v' & Hcommit & _ & Hset' & _ & Hact' & Happ).
    exists v'. split; [exact Hcommit|]. split; [exact Hset'|].
    cbn [app sample] in *. intros Hon. rewrite Hact' in Hon.
    destruct Happ as [-> | ->]; [apply Hne; exact Hon|].
    apply effect_buffer_nonempty. exact Hon.
  - destruct (sessionActive (app v)) eqn:Eact.
    + destruct (stop_active_profile notified newId now (app v) ap Hap)
        as [Hidle Hprof].
      destruct (commit_result nowEffect
                  (mkView (state (stopSessionHandler notified newId now (app v)))
                          (sample v) (committed v)) _ Hprof)
        as (v' & Hcommit & _ & Hset' & _ & Hact' & _).
      exists v'. unfold clickSession. rewrite Eact, Hcommit.
      split; [reflexivity|]. split; [exact Hset'|].
      cbn [app] in Hact'. rewrite Hact', Hidle. discriminate.
    + destruct (click_while_idle now nowEffect notified newId v ap Hset Hap Eact)
        as (v1 & Hclick & _ & Hset1 & _ & Hbuf & _).
      exists v1. rewrite Hclick. split; [reflexivity|]. split; [exact Hset1|].
      intros _. rewrite Hbuf. discriminate.
Qed.

Lemma run_good (es : list Event) : forall v,
  Good v -> exists v', run es v = Some v' /\ Good v'.
Proof.
  induction es as [|e es IH]; intros v HG.
  - exists v. split; [reflexivity | exact HG].
  - destruct (step_good e v HG) as [v1 [H1 HG1]].
    destruct (IH v1 HG1) as [v' [H2 HG2]].
    exists v'. split; [simpl; rewrite H1; exact H2 | exact HG2].
Qed.

Lemma idle_settled_good (v : View) :
  settledView v -> sessionActive (app v) = false -> Good v.
Proof. intros Hset Hidle. split; [exact Hset|]. rewrite Hidle. discriminate. Qed.

(** *** A session in which no sample arrives *)

(** The session that records only the force current at its start. *)
Lemma session_without_arrivals (v : View) (ap : ProfileData)
      (t0 tEffect : Z) (newId : string) (tstop tAfter : Z) :
  settledView v -> activeProfile (app v) = Some ap ->
  sessionActive (app v) = false ->
  let pu := preferredUnits (profile ap) in
  let f0 := convertedFor pu (sample v) in
  let s := buildSummary newId tstop ap (activeMode (app v)) (sessionHand (app v))
                        (mkSessionSample (tEffect - t0) f0 pu) [] in
  exists r v',
    session t0 tEffect [] true newId tstop tAfter v = Some (Some r, v') /\
    summary r = Some s /\
    profiles (app v') = addSession (profiles (app v)) (name (profile ap)) s /\
    activeProfile (app v') = Some (mkProfileData (profile ap) (s :: sessions ap)).
Proof.
  intros Hset Hap Hidle. cbv zeta.
  destruct (click_while_idle t0 tEffect true EmptyString v ap Hset Hap Hidle)
    as (v1 & Hclick & _ & _ & Happ1 & Hbuf1 & Hrec1).
  destruct Hrec1 as (Hap1 & Hact1 & _ & _).
  destruct (click_while_active tstop tAfter true newId v1 ap Hap1 Hact1)
    as (v' & Hstop & Happ' & _ & _).
  destruct (stop_on_buffer true newId tstop (app v1) ap _ _ Hap1 Hbuf1)
    as [Hyes _].
  destruct (Hyes eq_refl) as (_ & Hsum & Hprof).
  assert (Hmode : activeMode (app v1) = activeMode (app v))
    by (rewrite Happ1; reflexivity).
  assert (Hhand : sessionHand (app v1) = sessionHand (app v))
    by (rewrite Happ1; reflexivity).
  assert (Hps : profiles (app v1) = profiles (app v))
    by (rewrite Happ1; reflexivity).
  rewrite Hmode, Hhand in Hsum, Hprof. rewrite Hps in Hprof.
  exists (stopSessionHandler true newId tstop (app v1)), v'.
  split; [unfold session, started; rewrite Hclick; simpl arrivals; exact Hstop|].
  split; [exact Hsum|]. rewrite Happ'. split; [exact Hprof|].
  destruct (stop_active_profile true newId tstop (app v1) ap Hap1) as [_ Hnew].
  rewrite Hsum in Hnew. exact Hnew.
Qed.

(** C4, as the code has it.  [stopSessionHandler] on an empty buffer
    creates no summary and leaves the profile collection as it was.  A
    started session never has an empty buffer, however: the render that
    follows the start finds [sessionActive] changed and runs the sample
    effect, which records the force the hook currently holds, and along
    every run of arriving samples and clicks on the session button an
    active session has a sample.  So a session that is started and
    stopped with no sample arriving in between, the stop notification
    being fulfilled, creates a summary of that one sample: maximum and
    average are the converted force current at the start, the duration
    is the time from the start to the effect run, the longest hold is 0;
    the summary is put in front of the active profile's sessions. *)
Theorem stop_is_noop_only_on_empty_buffer (v : View) (ap : ProfileData) :
  settledView v -> activeProfile (app v) = Some ap ->
  sessionActive (app v) = false ->
  (forall (notified : bool) (newId : string) (now : Z) (st : AppState),
      sessionSamplesRef st = [] ->
      let r := stopSessionHandler notified newId now st in
      summary r = None /\ profiles (state r) = profiles st /\
      activeProfile (state r) = activeProfile st /\
      sessionActive (state r) = false) /\
  (forall es : list Event,
      exists v', run es v = Some v' /\
                 (sessionActive (app v') = true ->
                  sessionSamplesRef (app v') <> [])) /\
  (forall (t0 tEffect : Z) (newId : string) (tstop tAfter : Z),
      let pu := preferredUnits (profile ap) in
      let f0 := convertedFor pu (sample v) in
      exists r v' s,
        session t0 tEffect [] true newId tstop tAfter v = Some (Some r, v') /\
        summary r = Some s /\
        id s = newId /\ mode s = activeMode (app v) /\
        hand s = sessionHand (app v) /\ sum_units s = pu /\
        maxForce s = f0 /\ (avgForce s == f0)%Q /\
        durationMs s = tEffect - t0 /\ startedAt s = tstop - (tEffect - t0) /\
        longestHoldMs s = 0 /\
        profiles (app v') = addSession (profiles (app v)) (name (profile ap)) s /\
        activeProfile (app v') =
          Some (mkProfileData (profile ap) (s :: sessions ap))).
Proof.
  intros Hset Hap Hidle. split; [|split].
  - intros notified newId now st Hempty. cbv zeta.
    unfold stopSessionHandler. rewrite Hempty.
    destruct notified; simpl; repeat split.
  - intros es.
    destruct (run_good es v (idle_settled_good v Hset Hidle)) as (v' & Hrun & HG).
    exists v'. split; [exact Hrun | apply HG].
  - intros t0 tEffect newId tstop tAfter. cbv zeta.
    destruct (session_without_arrivals v ap t0 tEffect newId tstop tAfter
                Hset Hap Hidle) as (r & v' & Hses & Hsum & Hprof & Hnew).
    exists r, v'. eexists. split; [exact Hses|]. split; [exact Hsum|].
    cbn [buildSummary id mode hand sum_units maxForce avgForce durationMs
         startedAt longestHoldMs].
    repeat (split; [reflexivity|]).
    split.
    { unfold reduce_sum. simpl. field. }
    repeat (split; [reflexivity|]).
    split; [exact Hprof | exact Hnew].
Qed.

Lemma stop_is_noop_only_on_empty_buffer_witness :
  let v := mountedView "bryce" in
  (exists v', run [Clicks 1000 1002 true "a"; Arrives (mkForceSample 5 kg 1500) 1500] v
              = Some v' /\ sessionSamplesRef (app v') <> []) /\
  exists r v' s,
    session 1000 1002 [] true "id" 2000 2001 v = Some (Some r, v') /\
    summary r = Some s /\
    maxForce s = 0%Q /\ (avgForce s == 0)%Q /\
    durationMs s = 2 /\ startedAt s = 1998 /\
    activeProfile (app v') =
      Some (mkProfileData Storage.defaultProfile [s; Sample.s1; Sample.s2]).
Proof.
  intros v.
  assert (Hset : settledView v) by (split; [discriminate | reflexivity]).
  destruct (stop_is_noop_only_on_empty_buffer v Sample.bryceEntry Hset
              eq_refl eq_refl) as (_ & Hrun & Hses).
  split.
  - destruct (Hrun [Clicks 1000 1002 true "a";
                    Arrives (mkForceSample 5 kg 1500) 1500])
      as (v' & Hv' & Hne).
    exists v'. split; [exact Hv'|]. apply Hne.
    vm_compute in Hv'. injection Hv' as <-. reflexivity.
  - destruct (Hses 1000 1002 "id"%string 2000 2001)
      as (r & v' & s & H1 & H2 & _ & _ & _ & _ & H7 & H8 & H9 & H10 & _ & _ & H13).
    exists r, v', s. split; [exact H1|]. split; [exact H2|].
    split; [exact H7|]. split; [exact H8|]. split; [exact H9|].
    split; [exact H10 | exact H13].
Defined.

(** Started and stopped with no sample arriving in between, a session on
    the mounted application does create a summary, which changes the
    profile collection. *)
Lemma stop_after_start_without_arrivals_is_not_noop :
  let s := mkSessionSummary "id" ModeEndurance Right 1998 2 0 0 0 kg in
  exists r v',
    session 1000 1002 [] true "id" 2000 2001 (mountedView "bryce")
      = Some (Some r, v') /\
    summary r = Some s /\
    activeProfile (app v') =
      Some (mkProfileData Storage.defaultProfile [s; Sample.s1; Sample.s2]) /\
    ~ (summary r = None /\
       profiles (app v') = profiles (app (mountedView "bryce"))).
Proof.
  intros s. eexists. eexists.
  split; [vm_compute; reflexivity|].
  split; [reflexivity|].
  split; [reflexivity|].
  intros [Hnone _]. discriminate Hnone.
Qed.

(** *** What a stop stores *)

Lemma run_from_idle (es : list Event) (v0 v : View) :
  settledView v0 -> sessionActive (app v0) = false ->
  run es v0 = Some v -> Good v.
Proof.
  intros Hset Hidle Hrun.
  destruct (run_good es v0 (idle_settled_good v0 Hset Hidle)) as (v' & Hv' & HG).
  rewrite Hrun in Hv'. injection Hv' as <-. exact HG.
Qed.

(** X13. Along every run of arriving samples and clicks on the session
    button that leaves a session active, a further click runs
    [stopSessionHandler] on a non-empty buffer and leaves the session
    inactive and every profile under its name.  When the stop notification
    is fulfilled the handler returns with a summary carrying the given id,
    the selected mode and hand and the active profile's units; its
    duration is the offset of the last buffered sample, that is of the
    last run of the sample effect, and its start is the stop time minus
    that duration; the summary is put in front of the active profile's
    sessions.  When the notification is rejected the handler throws: no
    summary is created and the collection stays as it was. *)
Theorem stop_saves_summary_in_active_profile
        (es : list Event) (v0 v : View)
        (notified : bool) (newId : string) (tstop tAfter : Z) :
  settledView v0 -> sessionActive (app v0) = false ->
  run es v0 = Some v -> sessionActive (app v) = true ->
  exists ap first rest v',
    activeProfile (app v) = Some ap /\
    sessionSamplesRef (app v) = first :: rest /\
    let r := stopSessionHandler notified newId tstop (app v) in
    clickSession tstop tAfter notified newId v = Some (Some r, v') /\
    app v' = state r /\
    sessionActive (app v') = false /\
    names (profiles (app v')) = names (profiles (app v)) /\
    (notified = false ->
     completion r = Threw /\ summary r = None /\
     profiles (app v') = profiles (app v) /\
     activeProfile (app v') = Some ap) /\
    (notified = true ->
     exists s,
       completion r = Returned /\ summary r = Some s /\
       profiles (app v') = addSession (profiles (app v)) (name (profile ap)) s /\
       activeProfile (app v') =
         Some (mkProfileData (profile ap) (s :: sessions ap)) /\
       id s = newId /\ mode s = activeMode (app v) /\
       hand s = sessionHand (app v) /\
       sum_units s = preferredUnits (profile ap) /\
       durationMs s = t_ms (last (sessionSamplesRef (app v)) first) /\
       startedAt s = tstop - durationMs s).
Proof.
  intros Hset Hidle Hrun Hact.
  destruct (run_from_idle es v0 v Hset Hidle Hrun) as [Hsetv Hne].
  destruct (settled_active_profile v Hsetv) as [ap [Hap _]].
  destruct (sessionSamplesRef (app v)) as [|first rest] eqn:Hbuf;
    [exfalso; apply (Hne Hact); reflexivity|].
  destruct (click_while_active tstop tAfter notified newId v ap Hap Hact)
    as (v' & Hclick & Happ & _ & _).
  destruct (stop_active_profile notified newId tstop (app v) ap Hap)
    as [Hoff Hnew].
  destruct (stop_on_buffer notified newId tstop (app v) ap first rest Hap Hbuf)
    as [Hyes Hno].
  exists ap, first, rest, v'. split; [exact Hap|]. split; [reflexivity|].
  cbv zeta. split; [exact Hclick|]. split; [exact Happ|].
  rewrite Happ. split; [exact Hoff|].
  split.
  { destruct notified.
    - destruct (Hyes eq_refl) as (_ & _ & ->). apply names_addSession.
    - destruct (Hno eq_refl) as (_ & _ & ->). reflexivity. }
  split.
  - intros ->. destruct (Hno eq_refl) as (Hc & Hs & Hp).
    split; [exact Hc|]. split; [exact Hs|]. split; [exact Hp|].
    rewrite Hs in Hnew. rewrite Hnew. destruct ap; reflexivity.
  - intros ->. destruct (Hyes eq_refl) as (Hc & Hs & Hp).
    eexists. split; [exact Hc|]. split; [exact Hs|]. split; [exact Hp|].
    rewrite Hs in Hnew. split; [exact Hnew|].
    cbn [buildSummary id mode hand sum_units durationMs startedAt].
    repeat split.
Qed.

Lemma stop_saves_summary_in_active_profile_witness :
  let es := [Clicks 1000 1000 true "";
             Arrives (mkForceSample 20 kg 1100) 1100;
             Arrives (mkForceSample 12 kg 1200) 1200;
             Arrives (mkForceSample 25 kg 1300) 1300] in
  exists v,
    run es (idleView "alex") = Some v /\
    (exists r v' s,
        clickSession 1400 1400 true "id" v = Some (Some r, v') /\
        summary r = Some s /\ completion r = Returned /\
        activeProfile (app v') = Some (mkProfileData Sample.alex [s]) /\
        durationMs s = 300 /\ startedAt s = 1100) /\
    (exists r v',
        clickSession 1400 1400 false "id" v = Some (Some r, v') /\
        summary r = None /\ completion r = Threw /\
        sessionActive (app v') = false /\
        activeProfile (app v') = Some Sample.alexEntry).
Proof.
  intros es.
  assert (Hset : settledView (idleView "alex"))
    by (split; [discriminate | reflexivity]).
  destruct (run es (idleView "alex")) as [v|] eqn:Hrun; [|discriminate Hrun].
  assert (Hact : sessionActive (app v) = true)
    by (vm_compute in Hrun; injection Hrun as <-; reflexivity).
  assert (Hbuf : map t_ms (sessionSamplesRef (app v)) = [0; 100; 200; 300])
    by (vm_compute in Hrun; injection Hrun as <-; reflexivity).
  assert (Hwho : activeProfile (app v) = Some Sample.alexEntry)
    by (vm_compute in Hrun; injection Hrun as <-; reflexivity).
  exists v. split; [reflexivity|]. split.
  - destruct (stop_saves_summary_in_active_profile
                es (idleView "alex") v true "id" 1400 1400
                Hset eq_refl Hrun Hact)
      as (ap & first & rest & v' & Hap & Hb & Hclick & _ & _ & _ & _ & Hyes).
    destruct (Hyes eq_refl)
      as (s & Hc & Hs & _ & Hnew & _ & _ & _ & _ & Hdur & Hstart).
    rewrite Hwho in Hap. injection Hap as <-.
    assert (Hd : durationMs s = 300).
    { rewrite Hdur. rewrite Hb in Hbuf |- *.
      destruct rest as [|b [|c [|d [|e rest]]]]; try discriminate Hbuf.
      injection Hbuf as _ _ _ Hlast. exact Hlast. }
    eexists. exists v', s. split; [exact Hclick|]. split; [exact Hs|].
    split; [exact Hc|]. split; [exact Hnew|]. split; [exact Hd|].
    rewrite Hstart, Hd. reflexivity.
  - destruct (stop_saves_summary_in_active_profile
                es (idleView "alex") v false "id" 1400 1400
                Hset eq_refl Hrun Hact)
      as (ap & first & rest & v' & Hap & _ & Hclick & _ & Hoff & _ & Hno & _).
    destruct (Hno eq_refl) as (Hc & Hs & _ & Hsame).
    rewrite Hwho in Hap. injection Hap as <-.
    eexists. exists v'. split; [exact Hclick|]. split; [exact Hs|].
    split; [exact Hc|]. split; [exact Hoff | exact Hsame].
Defined.

(** *** The statistics of a session *)



(** *** Sessions of the component and fed sessions *)







End LifecycleFacts.
